(** * Kawakubo: the design-generation route

    A shallow embedding of [app/api/generate-design/route.ts] (the prompt
    builder [createPromptWithReference] and the request handler [POST]) with
    the part of the JavaScript run time the route relies on, followed by the
    properties of the route that the specification states.  The handlers of
    the page, [app/page.tsx], are embedded as well, with their properties
    and those of the page and the route together. *)

From Stdlib Require Import List NArith ZArith Bool Ascii String Lia SpecFloat.
Import ListNotations.

Set Implicit Arguments.
Set Warnings "-register-all".

(* ================================================================= *)
(** ** The JavaScript run time used by the route *)

Module JS.

(** A JavaScript string is a sequence of UTF-16 code units. *)
Definition code_unit := N.
Definition jsstring := list code_unit.

(** The string written by an ASCII literal of the source. *)
Definition lit (s : string) : jsstring :=
  map N_of_ascii (list_ascii_of_string s).

Definition LF : code_unit := 10%N.

(** The text of a template literal that spans several source lines: the
    lines, each followed by a line feed except the last. *)
Fixpoint lines (ls : list string) : jsstring :=
  match ls with
  | [] => []
  | [l] => lit l
  | l :: ls' => lit l ++ LF :: lines ls'
  end.

(** [s.length] *)
Definition str_length (s : jsstring) : N := N.of_nat (List.length s).

(** ECMAScript WhiteSpace and LineTerminator code points, the ones
    [String.prototype.trim] strips. *)
Definition is_whitespace (c : code_unit) : bool :=
  ((9 <=? c) && (c <=? 13)          (* TAB, LF, VT, FF, CR *)
   || (c =? 32)                      (* SPACE *)
   || (c =? 160)                     (* NO-BREAK SPACE *)
   || (c =? 5760)                    (* OGHAM SPACE MARK *)
   || (8192 <=? c) && (c <=? 8202)   (* EN QUAD .. HAIR SPACE *)
   || (c =? 8232) || (c =? 8233)     (* LINE / PARAGRAPH SEPARATOR *)
   || (c =? 8239)                    (* NARROW NO-BREAK SPACE *)
   || (c =? 8287)                    (* MEDIUM MATHEMATICAL SPACE *)
   || (c =? 12288)                   (* IDEOGRAPHIC SPACE *)
   || (c =? 65279))%N.               (* ZERO WIDTH NO-BREAK SPACE *)

Fixpoint trimStart (s : jsstring) : jsstring :=
  match s with
  | c :: s' => if is_whitespace c then trimStart s' else s
  | [] => []
  end.

Definition trimEnd (s : jsstring) : jsstring := rev (trimStart (rev s)).

(** [s.trim()] *)
Definition trim (s : jsstring) : jsstring := trimEnd (trimStart s).

(** [s.startsWith(t)] *)
Fixpoint startsWith (s t : jsstring) : bool :=
  match t, s with
  | [], _ => true
  | _ :: _, [] => false
  | b :: t', a :: s' => (a =? b)%N && startsWith s' t'
  end.

(** [s.includes(t)]: [t] occurs in [s] at some position. *)
Fixpoint includes (s t : jsstring) : bool :=
  startsWith s t ||
  match s with
  | [] => false
  | _ :: s' => includes s' t
  end.

(** [t] occurs in [s], as a proposition. *)
Definition Occurs (t s : jsstring) : Prop :=
  exists pre post, s = pre ++ t ++ post.

(** JavaScript values: what [JSON.parse] builds, and [undefined], the value
    of a property that is not there.  Numbers are IEEE 754 doubles.  An
    object is the list of its own properties, first binding of a key
    first. *)
Inductive value : Type :=
| VUndefined
| VNull
| VBool (b : bool)
| VNumber (x : spec_float)
| VString (s : jsstring)
| VArray (elems : list value)
| VObject (props : list (jsstring * value)).

(** ToBoolean: [!!v]. *)
Definition ToBoolean (v : value) : bool :=
  match v with
  | VUndefined | VNull => false
  | VBool b => b
  | VNumber (S754_zero _) | VNumber S754_nan => false
  | VNumber _ => true
  | VString s => negb (str_length s =? 0)%N
  | VArray _ | VObject _ => true
  end.

(** [s === t] on strings. *)
Fixpoint jsstring_eqb (s t : jsstring) : bool :=
  match s, t with
  | [], [] => true
  | a :: s', b :: t' => (a =? b)%N && jsstring_eqb s' t'
  | _, _ => false
  end.

Fixpoint lookup (k : jsstring) (props : list (jsstring * value)) : value :=
  match props with
  | [] => VUndefined
  | (k', v) :: rest => if jsstring_eqb k' k then v else lookup k rest
  end.

(** What can be thrown and caught: an instance of [Error] (or of a subclass)
    with its [message], or any other value. *)
Inductive thrown : Type :=
| ErrorInstance (message : jsstring)
| NotAnError (v : value).

(** [e instanceof Error] *)
Definition instanceof_Error (e : thrown) : bool :=
  match e with ErrorInstance _ => true | NotAnError _ => false end.

End JS.

Import JS.

(* ================================================================= *)
(** ** What the route exchanges with its environment *)

(** [process.env]: the one variable the route reads; [None] when unset. *)
Record ProcessEnv : Type := { OPENAI_API_KEY : option jsstring }.

(** [process.env['OPENAI_API_KEY']] as a value. *)
Definition env_OPENAI_API_KEY (env : ProcessEnv) : value :=
  match OPENAI_API_KEY env with
  | Some s => VString s
  | None => VUndefined
  end.

(** An awaited promise either resolves or rejects. *)
Inductive settled (A : Type) : Type :=
| Resolved (a : A)
| Rejected (e : thrown).
Arguments Rejected {A} e.

(** The incoming request: what awaiting [req.json()] gives. *)
Record Request : Type := { json : settled value }.

(** The provider's images ([Design] in [app/lib/types.ts]) and its response,
    whose [data] may be missing. *)
Record Image : Type := { url : jsstring; revised_prompt : option jsstring }.
Record ImagesResponse : Type := { data : option (list Image) }.

(** The argument of [openai.images.generate]. *)
Record ImageGenerateParams : Type := {
  model : jsstring;
  prompt : jsstring;
  n : N;
  size : jsstring;
  quality : jsstring;
  style : jsstring
}.

(** The provider client: how the call made with given parameters settles. *)
Definition OpenAI : Type := ImageGenerateParams -> settled ImagesResponse.

(** The JSON payload and the status of a [NextResponse]. *)
Inductive ResponseBody : Type :=
| error_body (error : jsstring)
| designs_body (designs : list Image).

Record NextResponse : Type := { body : ResponseBody; status : N }.

(** [NextResponse.json(body, { status })]; the status defaults to 200. *)
Definition NextResponse_json (b : ResponseBody) (init : option N) : NextResponse :=
  {| body := b; status := match init with Some st => st | None => 200%N end |}.

(** What the handler does that can be observed from outside, in order: the
    console lines, the read of the request body, the call of the prompt
    builder and the call of the provider. *)
Inductive logged : Type :=
| log_thrown (e : thrown)
| log_string (s : jsstring)
| log_response_json (r : ImagesResponse).  (* JSON.stringify(response, null, 2) *)

Inductive event : Type :=
| console_error (label : jsstring) (arg : option thrown)
| console_log (label : jsstring) (arg : logged)
| req_json
| call_createPromptWithReference (description : jsstring) (hasReferenceImage : bool)
| images_generate (params : ImageGenerateParams).

Definition trace : Type := list event.

(* ================================================================= *)
(** ** Control flow: early [return], [throw] and [try]/[catch] *)

(** How a block of statements completes. *)
Inductive completion (A : Type) : Type :=
| Normal (a : A)
| Return (r : NextResponse)
| Throw (e : thrown).
Arguments Return {A} r.
Arguments Throw {A} e.

(** A block runs after a trace and extends it. *)
Definition M (A : Type) : Type := trace -> completion A * trace.

Definition ret {A} (a : A) : M A := fun tr => (Normal a, tr).

Definition bind {A B} (m : M A) (k : A -> M B) : M B :=
  fun tr =>
    match m tr with
    | (Normal a, tr') => k a tr'
    | (Return r, tr') => (Return r, tr')
    | (Throw e, tr') => (Throw e, tr')
    end.

Definition return_ {A} (r : NextResponse) : M A := fun tr => (Return r, tr).
Definition throw {A} (e : thrown) : M A := fun tr => (Throw e, tr).
Definition emit (ev : event) : M unit := fun tr => (Normal tt, tr ++ [ev]).

Definition try_catch {A} (block : M A) (handler : thrown -> M A) : M A :=
  fun tr =>
    match block tr with
    | (Throw e, tr') => handler e tr'
    | done => done
    end.

Definition await {A} (p : settled A) : M A :=
  match p with
  | Resolved a => ret a
  | Rejected e => throw e
  end.

(** [if (c) { block }] *)
Definition when (c : bool) (block : M unit) : M unit :=
  if c then block else ret tt.

Notation "x <- m ;; k" := (bind m (fun x => k))
  (at level 61, m at next level, right associativity).
Notation "m ;; k" := (bind m (fun _ => k))
  (at level 61, right associativity).
Notation "'TRY' block 'CATCH' e => handler 'END'" :=
  (try_catch block (fun e => handler))
  (at level 0, e name, block at level 200, handler at level 200).

(** The errors the engine raises itself; both are [TypeError]s, instances of
    [Error].  Their texts are the engine's and reach the console only. *)
Definition TypeError_destructure : thrown :=
  ErrorInstance (lit "Cannot destructure property 'description' of 'body' as it is null.").
Definition TypeError_trim : thrown :=
  ErrorInstance (lit "description.trim is not a function").

(** [const { description, referenceImage } = body]: a [TypeError] on [null]
    and [undefined]; on any other value the two properties are read, and
    only an object built by [JSON.parse] can have them. *)
Definition get (v : value) (k : jsstring) : value :=
  match v with
  | VObject props => lookup k props
  | _ => VUndefined
  end.

Definition destructure (b : value) : M (value * value) :=
  match b with
  | VUndefined | VNull => throw TypeError_destructure
  | _ => ret (get b (lit "description"), get b (lit "referenceImage"))
  end.

(** [description.trim()]: only a string has a [trim] that can be called. *)
Definition call_trim (v : value) : M jsstring :=
  match v with
  | VString s => ret (trim s)
  | _ => throw TypeError_trim
  end.

(** The string a value is where the source passes it as a [string]; the
    values that are not strings have left the handler before, at
    [call_trim] (see [as_string_after_trim]). *)
Definition as_string (v : value) : M jsstring :=
  match v with
  | VString s => ret s
  | _ => throw TypeError_trim
  end.

(* ================================================================= *)
(** ** [createPromptWithReference] *)

Definition base_clause : jsstring :=
  lit "Create a new clothing item based on this description: ".

Definition reference_block : jsstring :=
  lines [ "";
          "    Use the reference image as inspiration for:";
          "    - Overall style and aesthetic";
          "    - Similar silhouette and proportions";
          "    - Comparable fabric texture and draping";
          "    - Related design elements and details";
          "    - Similar photography style";
          "";
          "    However, create a unique piece that combines these elements with the specific requirements from the description.";
          "    " ]%string.

Definition photography_block : jsstring :=
  lines [ "";
          "  Present the final design as a professional product photograph:";
          "  - Clean white or light gray background";
          "  - Studio-quality lighting to highlight fabric texture and details";
          "  - Sharp, clear, high-resolution image";
          "  - Professional fashion photography style";
          "  - Multiple angles if possible";
          "  - Photorealistic rendering";
          "  - HD quality";
          "  The final image should look like a high-end fashion e-commerce product photo." ]%string.

Definition createPromptWithReference (description : jsstring) (hasReferenceImage : bool)
  : jsstring :=
  let prompt := base_clause ++ description ++ lit "." in
  let prompt := if hasReferenceImage then prompt ++ reference_block else prompt in
  let prompt := prompt ++ photography_block in
  prompt.

(* ================================================================= *)
(** ** [POST]

    The client [openai] is built when the module is loaded; the model starts
    where [POST] is called. *)

Definition generate_params (p : jsstring) : ImageGenerateParams :=
  {| model := lit "dall-e-3";
     prompt := p;
     n := 1;
     size := lit "1024x1024";
     quality := lit "hd";
     style := lit "natural" |}.

(** [!response.data || response.data.length === 0] *)
Definition no_data (response : ImagesResponse) : bool :=
  match data response with
  | None => true
  | Some l => (N.of_nat (List.length l) =? 0)%N
  end.

Definition POST (env : ProcessEnv) (openai : OpenAI) (req : Request) : M Empty_set :=
  when (negb (ToBoolean (env_OPENAI_API_KEY env)))
    (emit (console_error (lit "OpenAI API key is missing from environment variables") None) ;;
     return_ (NextResponse_json
                (error_body (lit "OpenAI API key not configured in Replit secrets"))
                (Some 500%N))) ;;
  TRY
    body <- (TRY
               emit req_json ;;
               await (json req)
             CATCH e =>
               emit (console_error (lit "Error parsing request body:") (Some e)) ;;
               return_ (NextResponse_json (error_body (lit "Invalid request body"))
                                          (Some 400%N))
             END) ;;
    dr <- destructure body ;;
    let '(description, referenceImage) := dr in
    invalid <- (if negb (ToBoolean description) then ret true
                else trimmed <- call_trim description ;;
                     ret (str_length trimmed =? 0)%N) ;;
    when invalid
      (return_ (NextResponse_json (error_body (lit "Description is required"))
                                  (Some 400%N))) ;;
    d <- as_string description ;;
    emit (call_createPromptWithReference d (ToBoolean referenceImage)) ;;
    let prompt := createPromptWithReference d (ToBoolean referenceImage) in
    emit (console_log (lit "Sending prompt to OpenAI:") (log_string prompt)) ;;
    TRY
      emit (images_generate (generate_params prompt)) ;;
      response <- await (openai (generate_params prompt)) ;;
      emit (console_log (lit "OpenAI API Response:") (log_response_json response)) ;;
      when (no_data response)
        (throw (ErrorInstance (lit "No images generated"))) ;;
      return_ (NextResponse_json
                 (designs_body (match data response with Some l => l | None => [] end))
                 None)
    CATCH openaiError =>
      emit (console_error (lit "OpenAI API Error:") (Some openaiError)) ;;
      match openaiError with
      | ErrorInstance message =>
          when (includes message (lit "rate limit"))
            (return_ (NextResponse_json
                        (error_body (lit "Rate limit exceeded. Please try again later."))
                        (Some 429%N))) ;;
          when (includes message (lit "content policy"))
            (return_ (NextResponse_json
                        (error_body (lit "Content policy violation. Please modify your request."))
                        (Some 400%N)))
      | NotAnError _ => ret tt
      end ;;
      return_ (NextResponse_json (error_body (lit "Error generating image with OpenAI"))
                                 (Some 500%N))
    END
  CATCH error =>
    emit (console_error (lit "Unexpected error:") (Some error)) ;;
    return_ (NextResponse_json (error_body (lit "An unexpected error occurred"))
                               (Some 500%N))
  END.

(** One request served: the handler run from the empty trace. *)
Definition serve (env : ProcessEnv) (openai : OpenAI) (req : Request)
  : completion Empty_set * trace :=
  POST env openai req [].

(* ================================================================= *)
(** ** Vocabulary of the statements *)

(** [{ error: msg }] with a status. *)
Definition error_response (msg : string) (st : N) : NextResponse :=
  {| body := error_body (lit msg); status := st |}.

(** The message the caller reads in the response, if it is an error. *)
Definition caller_message (c : completion Empty_set) : option jsstring :=
  match c with
  | Return {| body := error_body msg |} => Some msg
  | _ => None
  end.

(** The prompts handed to the provider, and the arguments the prompt builder
    was called with, in a trace. *)
Definition prompts_sent (tr : trace) : list jsstring :=
  flat_map (fun ev => match ev with images_generate p => [prompt p] | _ => [] end) tr.

Definition builder_calls (tr : trace) : list (jsstring * bool) :=
  flat_map (fun ev => match ev with
                      | call_createPromptWithReference d h => [(d, h)]
                      | _ => []
                      end) tr.

Definition is_console (ev : event) : bool :=
  match ev with
  | console_error _ _ | console_log _ _ => true
  | _ => false
  end.

(** The request passes the configuration check, its body parses, and its
    description [d] is a string that is not empty after trimming; [ref] is
    its [referenceImage]. *)
Definition accepted (env : ProcessEnv) (req : Request) (d : jsstring) (ref : value) : Prop :=
  ToBoolean (env_OPENAI_API_KEY env) = true /\
  exists b, json req = Resolved b /\
            get b (lit "description") = VString d /\
            get b (lit "referenceImage") = ref /\
            trim d <> [].

(** A description that is missing ([undefined] or [null]), empty, or made
    of white space only. *)
Definition blank (v : value) : Prop :=
  v = VUndefined \/ v = VNull \/
  exists s, v = VString s /\ forallb is_whitespace s = true.

(** Some nonempty end of [b] is a beginning of [t]. *)
Fixpoint suffix_prefix_overlap (b t : jsstring) : bool :=
  match b with
  | [] => false
  | _ :: b' => startsWith t b || suffix_prefix_overlap b' t
  end.

(** Concrete requests and providers. *)
Definition env_configured : ProcessEnv := {| OPENAI_API_KEY := Some (lit "sk-test") |}.
Definition env_unset : ProcessEnv := {| OPENAI_API_KEY := None |}.

Definition submission (description referenceImage : value) : Request :=
  {| json := Resolved (VObject [ (lit "description", description);
                                 (lit "referenceImage", referenceImage) ]) |}.

Definition provider_settling (r : settled ImagesResponse) : OpenAI := fun _ => r.

Definition one_image : Image :=
  {| url := lit "https://x/1.png"; revised_prompt := None |}.

Definition dress : jsstring := lit "dress".
Definition data_url : jsstring := lit "data:image/png;base64,iVBORw0KGgo=".
Definition other_data_url : jsstring := lit "data:image/jpeg;base64,/9j/4AAQSkZJRg==".

Definition provider_ok : OpenAI := provider_settling (Resolved {| data := Some [one_image] |}).
Definition provider_empty : OpenAI := provider_settling (Resolved {| data := Some [] |}).

(** A failure message that mentions both a rate limit and the content
    policy, and a thrown value that is not an [Error]. *)
Definition rate_and_policy : jsstring :=
  lit "rate limit reached while the content policy check was pending".
Definition policy_only : jsstring :=
  lit "Your request was rejected by the content policy.".
Definition thrown_object : thrown :=
  NotAnError (VObject [ (lit "message", VString policy_only) ]).

(** The number 42. *)
Definition forty_two : value := VNumber (S754_finite false 42 0).

(** Further vocabulary for the handler: the calls of the prompt builder and
    of the provider in a trace, in the order they were made; the parameters
    of the provider calls; the error responses the route can give; and a
    description with a code unit that is not white space. *)
Definition outgoing_calls (tr : trace) : trace :=
  filter (fun ev => match ev with
                    | call_createPromptWithReference _ _ | images_generate _ => true
                    | _ => false
                    end) tr.

Definition provider_calls (tr : trace) : list ImageGenerateParams :=
  flat_map (fun ev => match ev with images_generate p => [p] | _ => [] end) tr.

Definition error_responses : list NextResponse :=
  [ error_response "OpenAI API key not configured in Replit secrets" 500;
    error_response "Invalid request body" 400;
    error_response "Description is required" 400;
    error_response "Rate limit exceeded. Please try again later." 429;
    error_response "Content policy violation. Please modify your request." 400;
    error_response "Error generating image with OpenAI" 500;
    error_response "An unexpected error occurred" 500 ].

Definition has_visible_character (s : jsstring) : bool :=
  existsb (fun c => negb (is_whitespace c)) s.

(* ================================================================= *)
(** ** The page, [app/page.tsx]

    The component [Home] keeps five state variables and has two handlers,
    [handleImageUpload] and [handleSubmit].  A handler runs on the state of
    the render it was created in and queues updates; the model applies the
    updates in the order they are queued, which gives the state of the next
    render. *)

From Stdlib Require DecimalString.

Module Page.

Record State : Type := {
  designDescription : jsstring;
  referenceImage : option jsstring;   (* string | null *)
  loading : bool;
  designs : option value;             (* Design[] | null *)
  error : option jsstring             (* string | null *)
}.

(** [useState] initial values. *)
Definition initial : State :=
  {| designDescription := lit ""; referenceImage := None; loading := false;
     designs := None; error := None |}.

(** The second argument of [fetch]; [body_json] is the value that
    [JSON.stringify] is applied to. *)
Record FetchInit : Type := {
  method : jsstring;
  headers : list (jsstring * jsstring);
  body_json : value
}.

(** A [Response]: [ok], [status] and what awaiting [json()] gives. *)
Record Response : Type := {
  ok : bool;
  status : N;
  json : settled value
}.

Definition Fetch : Type := jsstring -> FetchInit -> settled Response.

(** A [File] of the input element: its size in bytes and how reading it as a
    data URL ends, with the data URL or with an error. *)
Record File : Type := {
  size : N;
  read : option jsstring
}.

(** What the handlers do besides updating the state; [fetch_call] carries
    the state as queued when the request leaves. *)
Inductive event : Type :=
| preventDefault
| fetch_call (url : jsstring) (init : FetchInit) (queued : State)
| readAsDataURL (f : File)
| console_error (label : jsstring) (arg : thrown).

Record World : Type := { state : State; log : list event }.

Inductive completion (A : Type) : Type :=
| Normal (a : A)
| Return
| Throw (e : thrown).
Arguments Return {A}.
Arguments Throw {A} e.

Definition P (A : Type) : Type := World -> completion A * World.

Definition ret {A} (a : A) : P A := fun w => (Normal a, w).

Definition bind {A B} (m : P A) (k : A -> P B) : P B :=
  fun w =>
    match m w with
    | (Normal a, w') => k a w'
    | (Return, w') => (Return, w')
    | (Throw e, w') => (Throw e, w')
    end.

Definition return_ {A} : P A := fun w => (Return, w).
Definition throw {A} (e : thrown) : P A := fun w => (Throw e, w).

Definition emit (ev : event) : P unit :=
  fun w => (Normal tt, {| state := state w; log := log w ++ [ev] |}).

Definition update (f : State -> State) : P unit :=
  fun w => (Normal tt, {| state := f (state w); log := log w |}).

Definition queued_state : P State := fun w => (Normal (state w), w).

Definition try_catch {A} (block : P A) (handler : thrown -> P A) : P A :=
  fun w =>
    match block w with
    | (Throw e, w') => handler e w'
    | done => done
    end.

(** [try { block } finally { fin }]: [fin] runs however [block] completes,
    and the completion of [block] stands unless [fin] throws. *)
Definition try_finally {A} (block : P A) (fin : P unit) : P A :=
  fun w =>
    match block w with
    | (c, w') =>
        match fin w' with
        | (Throw e, w'') => (Throw e, w'')
        | (_, w'') => (c, w'')
        end
    end.

Definition await {A} (p : settled A) : P A :=
  match p with
  | Resolved a => ret a
  | Rejected e => throw e
  end.

Definition when (c : bool) (block : P unit) : P unit :=
  if c then block else ret tt.

Declare Scope page_scope.
Notation "x <- m ;; k" := (bind m (fun x => k))
  (at level 61, m at next level, right associativity) : page_scope.
Notation "m ;; k" := (bind m (fun _ => k))
  (at level 61, right associativity) : page_scope.
Notation "'TRY' block 'CATCH' e => handler 'END'" :=
  (try_catch block (fun e => handler))
  (at level 0, e name, block at level 200, handler at level 200) : page_scope.
Notation "'TRY' block 'FINALLY' fin 'END'" :=
  (try_finally block fin)
  (at level 0, block at level 200, fin at level 200) : page_scope.
#[local] Open Scope page_scope.

(** The state setters. *)
Definition setReferenceImage (v : option jsstring) : P unit :=
  update (fun s => {| designDescription := designDescription s; referenceImage := v;
                      loading := loading s; designs := designs s; error := error s |}).
Definition setLoading (v : bool) : P unit :=
  update (fun s => {| designDescription := designDescription s;
                      referenceImage := referenceImage s;
                      loading := v; designs := designs s; error := error s |}).
Definition setDesigns (v : option value) : P unit :=
  update (fun s => {| designDescription := designDescription s;
                      referenceImage := referenceImage s;
                      loading := loading s; designs := v; error := error s |}).
Definition setError (v : option jsstring) : P unit :=
  update (fun s => {| designDescription := designDescription s;
                      referenceImage := referenceImage s;
                      loading := loading s; designs := designs s; error := v |}).

(** [string | null] as a value. *)
Definition nullable (o : option jsstring) : value :=
  match o with
  | Some s => VString s
  | None => VNull
  end.

(** [v.k] for the two property names read from a parsed response, [error]
    and [designs]: a [TypeError] on [null] and [undefined]. *)
Definition TypeError_read (k : string) : thrown :=
  ErrorInstance (lit "Cannot read properties of null (reading '" ++ lit k ++ lit "')").

Definition member (v : value) (k : string) : P value :=
  match v with
  | VUndefined | VNull => throw (TypeError_read k)
  | _ => ret (get v (lit k))
  end.

(** [v.length === 0] for a truthy [v] built by [JSON.parse]. *)
Definition length_is_zero (v : value) : bool :=
  match v with
  | VArray elems => (N.of_nat (List.length elems) =? 0)%N
  | VString s => (str_length s =? 0)%N
  | VObject props =>
      match lookup (lit "length") props with
      | VNumber (S754_zero _) => true
      | _ => false
      end
  | _ => false
  end.

(** The decimal digits of a status code, as a template literal prints it. *)
Definition decimal (k : N) : jsstring :=
  lit (DecimalString.NilEmpty.string_of_uint (N.to_uint k)).

Section Handlers.

(** The conversion to a string that [new Error(v)] applies to its argument.
    On a string it is the identity; on other values it is left open (the
    statements that need it say what they assume of it). *)
Variable ToString : value -> settled jsstring.

(** [handleImageUpload], and with it the two callbacks it installs on the
    [FileReader]: a read that fails dispatches [error] and then [loadend],
    with [reader.result] null; a read that succeeds dispatches [loadend]
    with the data URL in [reader.result]. *)
Definition onloadend (result : option jsstring) : P unit :=
  setReferenceImage result ;;
  setError None.

Definition onerror : P unit :=
  setError (Some (lit "Error reading file. Please try another image.")).

Definition handleImageUpload (files : option (list File)) : P unit :=
  match match files with Some fs => nth_error fs 0 | None => None end with
  | Some file =>
      when (10 * 1024 * 1024 <? size file)%N
        (setError (Some (lit "File size too large. Please upload an image under 10MB.")) ;;
         return_) ;;
      emit (readAsDataURL file) ;;
      match read file with
      | Some dataURL => onloadend (Some dataURL)
      | None => onerror ;; onloadend None
      end
  | None => ret tt
  end.

(** [handleSubmit] *)
Definition handleSubmit (fetch : Fetch) : P unit :=
  render <- queued_state ;;
  emit preventDefault ;;
  setLoading true ;;
  setError None ;;
  setDesigns None ;;
  TRY
    TRY
      let init :=
        {| method := lit "POST";
           headers := [ (lit "Content-Type", lit "application/json") ];
           body_json :=
             VObject [ (lit "description", VString (designDescription render));
                       (lit "referenceImage", nullable (referenceImage render)) ] |} in
      now <- queued_state ;;
      emit (fetch_call (lit "/api/generate-design") init now) ;;
      response <- await (fetch (lit "/api/generate-design") init) ;;
      when (negb (ok response))
        (errorData <- await (json response) ;;
         e <- member errorData "error" ;;
         message <- (if ToBoolean e then await (ToString e)
                     else ret (lit "HTTP error! status: " ++ decimal (status response))) ;;
         throw (ErrorInstance message)) ;;
      data <- await (json response) ;;
      ds <- member data "designs" ;;
      when (negb (ToBoolean ds) || length_is_zero ds)
        (throw (ErrorInstance (lit "No designs were generated"))) ;;
      setDesigns (Some ds)
    CATCH err =>
      let errorMessage :=
        match err with
        | ErrorInstance message => message
        | NotAnError _ => lit "An unexpected error occurred"
        end in
      emit (console_error (lit "Error generating design:") err) ;;
      setError (Some errorMessage)
    END
  FINALLY
    setLoading false
  END.

End Handlers.

(** A handler run on a state, from an empty log. *)
Definition run (h : P unit) (s : State) : State * list event :=
  let '(_, w) := h {| state := s; log := [] |} in (state w, log w).

End Page.

(* ================================================================= *)
(** ** The page and the route together

    What lies between [fetch] in the page and [POST] in the route: the body
    of the request reaches [req.json()] as the value it was serialised from,
    a status from 200 to 299 makes [response.ok], and [response.json()]
    gives the payload of [NextResponse.json] back, a missing
    [revised_prompt] left out. *)

Definition image_json (i : Image) : value :=
  VObject ((lit "url", VString (url i)) ::
           match revised_prompt i with
           | Some p => [ (lit "revised_prompt", VString p) ]
           | None => []
           end).

Definition payload_json (b : ResponseBody) : value :=
  match b with
  | error_body msg => VObject [ (lit "error", VString msg) ]
  | designs_body l => VObject [ (lit "designs", VArray (map image_json l)) ]
  end.

Definition route_fetch (env : ProcessEnv) (openai : OpenAI) : Page.Fetch :=
  fun _ init =>
    match fst (serve env openai {| json := Resolved (Page.body_json init) |}) with
    | Return r =>
        Resolved {| Page.ok := (200 <=? status r)%N && (status r <=? 299)%N;
                    Page.status := status r;
                    Page.json := Resolved (payload_json (body r)) |}
    | Throw e => Rejected e
    | Normal a => match a with end
    end.

(** The request [handleSubmit] sends from a state, and the request the route
    then serves. *)
Definition submit_init (s : Page.State) : Page.FetchInit :=
  {| Page.method := lit "POST";
     Page.headers := [ (lit "Content-Type", lit "application/json") ];
     Page.body_json :=
       VObject [ (lit "description", VString (Page.designDescription s));
                 (lit "referenceImage", Page.nullable (Page.referenceImage s)) ] |}.

Definition submitted (s : Page.State) : Request :=
  {| json := Resolved (Page.body_json (submit_init s)) |}.

(** The state a submission ends in: not loading, the two inputs as they
    were, and the given designs and error. *)
Definition settled_state (s : Page.State) (ds : option value) (err : option jsstring)
  : Page.State :=
  {| Page.designDescription := Page.designDescription s;
     Page.referenceImage := Page.referenceImage s;
     Page.loading := false;
     Page.designs := ds;
     Page.error := err |}.

(** The state while the request is under way. *)
Definition in_flight (s : Page.State) : Page.State :=
  {| Page.designDescription := Page.designDescription s;
     Page.referenceImage := Page.referenceImage s;
     Page.loading := true;
     Page.designs := None;
     Page.error := None |}.


(** An instance of [ToString] for the concrete runs below.  It agrees with
    JavaScript on strings, where it is the identity, and that is the only
    place those runs apply it; on other values JavaScript's conversion
    differs (a number gives its digits) and no statement relies on this
    instance there. *)
Definition ToString_strings (v : value) : settled jsstring :=
  match v with
  | VString s => Resolved s
  | _ => Rejected (ErrorInstance (lit "Cannot convert object to primitive value"))
  end.

(* ================================================================= *)
(** ** Facts about strings *)

Section StringFacts.

Implicit Types s t u : jsstring.

Lemma startsWith_true s t :
  startsWith s t = true <-> exists post, s = t ++ post.
Proof.
  revert s; induction t as [|b t IH]; intros s.
  - destruct s; simpl; split; eauto.
  - destruct s as [|a s]; simpl.
    + split; [discriminate | intros [post H]; discriminate].
    + rewrite andb_true_iff, N.eqb_eq, IH. split.
      * intros [-> [post ->]]. now exists post.
      * intros [post H]. injection H as -> ->. eauto.
Qed.

Lemma includes_true s t : includes s t = true <-> Occurs t s.
Proof.
  unfold Occurs. induction s as [|a s IH].
  - cbn [includes]. rewrite orb_false_r, startsWith_true. split.
    + intros [post H]. now exists [], post.
    + intros [pre [post H]]. destruct pre; [now exists post | discriminate].
  - cbn [includes]. rewrite orb_true_iff, startsWith_true, IH. split.
    + intros [[post H] | [pre [post H]]].
      * now exists [], post.
      * exists (a :: pre), post. simpl. now rewrite H.
    + intros [[|c pre] [post H]].
      * left. now exists post.
      * right. injection H as _ H. now exists pre, post.
Qed.

Lemma includes_false s t : includes s t = false <-> ~ Occurs t s.
Proof.
  rewrite <- includes_true. destruct (includes s t); split; congruence.
Qed.

Lemma includes_iff s s' t :
  (Occurs t s <-> Occurs t s') -> includes s t = includes s' t.
Proof.
  rewrite <- !includes_true.
  destruct (includes s t), (includes s' t); intuition congruence.
Qed.

Lemma str_length_app s t : str_length (s ++ t) = (str_length s + str_length t)%N.
Proof. unfold str_length. rewrite length_app. lia. Qed.

Lemma str_length_0 s : str_length s = 0%N <-> s = [].
Proof.
  unfold str_length. destruct s; simpl; split; try easy; lia.
Qed.

(** Trimming. *)

Lemma trimStart_whitespace s : forallb is_whitespace s = true -> trimStart s = [].
Proof.
  induction s as [|c s IH]; simpl; [easy|].
  rewrite andb_true_iff. intros [-> H]. auto.
Qed.

Lemma trim_whitespace s : forallb is_whitespace s = true -> trim s = [].
Proof.
  intros H. unfold trim, trimEnd. now rewrite (trimStart_whitespace _ H).
Qed.

Lemma trimStart_nil_whitespace s : trimStart s = [] -> forallb is_whitespace s = true.
Proof.
  induction s as [|c s IH]; simpl; [easy|].
  destruct (is_whitespace c); [auto | discriminate].
Qed.

Lemma trimStart_fixed s : trimStart (trimStart s) = trimStart s.
Proof.
  induction s as [|c s IH]; simpl; [easy|].
  destruct (is_whitespace c) eqn:E; [auto | simpl; now rewrite E].
Qed.

Lemma trimStart_suffix s : exists ws, s = ws ++ trimStart s /\ forallb is_whitespace ws = true.
Proof.
  induction s as [|c s [ws [IH1 IH2]]]; simpl.
  - now exists [].
  - destruct (is_whitespace c) eqn:E.
    + exists (c :: ws). simpl. rewrite E, IH2. split; [now rewrite <- IH1 | easy].
    + now exists [].
Qed.

Lemma trim_nil_iff s : trim s = [] <-> forallb is_whitespace s = true.
Proof.
  split; [|apply trim_whitespace].
  unfold trim, trimEnd. intros H.
  assert (H' : trimStart (rev (trimStart s)) = []).
  { rewrite <- (rev_involutive (trimStart _)). now rewrite H. }
  apply trimStart_nil_whitespace in H'.
  destruct (trimStart_suffix s) as [ws [Hs Hws]].
  rewrite Hs, forallb_app, Hws. simpl.
  rewrite forallb_forall in *. intros x Hx. apply H'. now apply in_rev in Hx.
Qed.

End StringFacts.

Section Sandwich.

Lemma suffix_prefix_overlap_true (b t x m l : jsstring) :
  b = x ++ m -> m <> [] -> t = m ++ l -> suffix_prefix_overlap b t = true.
Proof.
  intros -> Hm ->. induction x as [|c x IH]; simpl.
  - destruct m as [|c m]; [easy|]. cbn [suffix_prefix_overlap].
    apply orb_true_iff. left. apply startsWith_true. now exists l.
  - rewrite IH. apply orb_true_r.
Qed.

(** An occurrence of [b] in [p ++ d ++ t] lies inside [d] as soon as [b]
    cannot start in [p], cannot end in [t] and does not occur in [t]. *)
Lemma occurs_sandwich (p d t b : jsstring) (c : code_unit) (b' : jsstring) :
  b = c :: b' ->
  ~ In c p ->
  suffix_prefix_overlap b t = false ->
  includes t b = false ->
  Occurs b (p ++ d ++ t) -> Occurs b d.
Proof.
  intros Hb Hp Hov Hin [pre [post H]].
  assert (Hmid : exists k, d ++ t = k ++ b ++ post).
  { apply app_eq_app in H as [l [[-> H] | [-> H]]].
    - destruct l as [|c' l].
      + exists []. simpl in *. now rewrite app_nil_r in *.
      + exfalso. apply Hp. rewrite Hb in H. injection H as <- _.
        apply in_or_app. right. now left.
    - now exists l. }
  destruct Hmid as [k Hk].
  rewrite (app_assoc k b post) in Hk.
  apply app_eq_app in Hk as [l [[Hd Ht] | [Hkb Ht]]].
  - exists k, l. now rewrite Hd, <- app_assoc.
  - destruct l as [|c' l].
    + exists k, []. rewrite !app_nil_r in *. easy.
    + exfalso. apply app_eq_app in Hkb as [l' [[Hk' Hl] | [Hd Hbl]]].
      * apply includes_false in Hin. apply Hin. exists l', post.
        now rewrite Ht, Hl, <- app_assoc.
      * assert (Hov' : suffix_prefix_overlap b t = true)
          by (eapply suffix_prefix_overlap_true; [exact Hbl | easy | exact Ht]).
        congruence.
Qed.

End Sandwich.

(* ================================================================= *)
(** ** The prompt builder *)

Lemma createPromptWithReference_eq d h :
  createPromptWithReference d h =
  base_clause ++ d ++ (lit "." ++ (if h then reference_block else []) ++ photography_block).
Proof.
  unfold createPromptWithReference. destruct h; now rewrite <- ?app_assoc.
Qed.

(** C6: the prompt contains the description verbatim, for every description
    (empty or not) and either value of the flag; stated both as an occurrence
    and with the run-time test [includes]. *)
Theorem prompt_contains_description (d : jsstring) (hasRef : bool) :
  Occurs d (createPromptWithReference d hasRef) /\
  includes (createPromptWithReference d hasRef) d = true.
Proof.
  assert (H : Occurs d (createPromptWithReference d hasRef)).
  { rewrite createPromptWithReference_eq. now eexists _, _. }
  split; [exact H | now apply includes_true].
Qed.

(** C7, as stated, fails: a description that itself contains the reference
    block gives a prompt that contains it although the flag is false. *)
Lemma reference_block_in_description_cex :
  includes (createPromptWithReference reference_block false) reference_block = true.
Proof. vm_compute. reflexivity. Qed.

(** C7, amended: with the flag set the prompt contains the reference block,
    for every description; with the flag clear the prompt contains the block
    exactly when the description itself does, so it does not for a
    description that does not contain it. *)
Theorem prompt_reference_block (d : jsstring) :
  includes (createPromptWithReference d true) reference_block = true /\
  includes (createPromptWithReference d false) reference_block
    = includes d reference_block.
Proof.
  split.
  - apply includes_true. exists (base_clause ++ d ++ lit "."), photography_block.
    unfold createPromptWithReference. now rewrite <- !app_assoc.
  - apply includes_iff. rewrite createPromptWithReference_eq. split.
    + apply occurs_sandwich with (c := LF) (b' := tl reference_block).
      * reflexivity.
      * vm_compute. intuition congruence.
      * vm_compute. reflexivity.
      * vm_compute. reflexivity.
    + intros [pre [post ->]].
      exists (base_clause ++ pre), (post ++ lit "." ++ [] ++ photography_block).
      now rewrite <- !app_assoc.
Qed.

(** C8: the prompt builder is a function of its two arguments alone, defined
    on every description and flag, and its result is never the empty
    string: its length is that of the description plus the 468 code units of
    the fixed text, plus the 364 of the reference block when the flag is
    set. *)
Theorem prompt_never_empty (d : jsstring) (h : bool) :
  createPromptWithReference d h <> lit "" /\
  str_length (createPromptWithReference d h) =
    (468 + str_length d + (if h then 364 else 0))%N.
Proof.
  assert (L : str_length (createPromptWithReference d h) =
    (468 + str_length d + (if h then 364 else 0))%N).
  { rewrite createPromptWithReference_eq, !str_length_app.
    destruct h; vm_compute (str_length base_clause); vm_compute (str_length (lit "."));
    vm_compute (str_length reference_block); vm_compute (str_length photography_block);
    vm_compute (str_length []); lia. }
  split; [|exact L].
  intros E. rewrite E in L. vm_compute (str_length (lit "")) in L. destruct h; lia.
Qed.

(* ================================================================= *)
(** ** The handler *)

Arguments lit : simpl never.

Ltac handler_steps :=
  cbv beta iota delta [serve POST bind when ret return_ throw emit try_catch await
                       destructure call_trim as_string NextResponse_json].

Lemma trim_nonempty d : trim d <> [] -> ToBoolean (VString d) = true.
Proof.
  destruct d; [now intros [] | reflexivity].
Qed.

Lemma trim_length d : trim d <> [] -> (str_length (trim d) =? 0)%N = false.
Proof.
  intros H. apply N.eqb_neq. now rewrite str_length_0.
Qed.

Lemma get_string_object b k s : get b k = VString s -> exists props, b = VObject props.
Proof. destruct b; try discriminate. eauto. Qed.

(** An accepted request reaches the provider: the handler's run is the run
    of its inner [try] block after the four events of the way there. *)
Ltac accept H :=
  let Hk := fresh "Hkey" in let b := fresh "b" in let Hj := fresh "Hjson" in
  let Hd := fresh "Hdesc" in let Hr := fresh "Href" in let Ht := fresh "Htrim" in
  let props := fresh "props" in
  destruct H as [Hk [b [Hj [Hd [Hr Ht]]]]];
  destruct (get_string_object b _ Hd) as [props ->];
  handler_steps; rewrite Hk, Hj; cbv beta iota; rewrite Hd, Hr;
  rewrite trim_nonempty by exact Ht; cbv beta iota delta [negb];
  rewrite trim_length by exact Ht;
  cbv beta iota; cbn [app].

Lemma console_only_calls rest :
  forallb is_console rest = true ->
  builder_calls rest = [] /\ prompts_sent rest = [].
Proof.
  induction rest as [|ev rest IH]; simpl; [easy|].
  rewrite andb_true_iff. intros [Hev Hrest]. destruct (IH Hrest) as [-> ->].
  destruct ev; try discriminate; easy.
Qed.

Lemma serve_accepted_trace env openai req d ref :
  accepted env req d ref ->
  exists r rest,
    serve env openai req =
      (Return r,
       [ req_json;
         call_createPromptWithReference d (ToBoolean ref);
         console_log (lit "Sending prompt to OpenAI:")
                     (log_string (createPromptWithReference d (ToBoolean ref)));
         images_generate (generate_params (createPromptWithReference d (ToBoolean ref))) ]
       ++ rest) /\
    forallb is_console rest = true.
Proof.
  intros H. accept H.
  destruct (openai _) as [response | e].
  - destruct (no_data response).
    + eexists _, [_; _]. split; reflexivity.
    + eexists _, [_]. split; reflexivity.
  - destruct e as [message | v].
    + destruct (includes message (lit "rate limit")); cbv beta iota.
      * eexists _, [_]. split; reflexivity.
      * destruct (includes message (lit "content policy")); cbv beta iota;
          eexists _, [_]; split; reflexivity.
    + eexists _, [_]. split; reflexivity.
Qed.

Lemma as_string_after_trim (v : value) (tr tr' : trace) (t : jsstring) :
  call_trim v tr = (Normal t, tr') ->
  exists s, v = VString s /\ as_string v tr' = (Normal s, tr').
Proof.
  destruct v; try discriminate. intros _. now exists s.
Qed.

Ltac responds := solve [eexists; reflexivity].

Lemma POST_always_responds env openai req :
  exists r, fst (serve env openai req) = Return r.
Proof.
  handler_steps.
  destruct (ToBoolean (env_OPENAI_API_KEY env)); cbv beta iota delta [negb]; [|responds].
  destruct (json req) as [b | e]; cbv beta iota; [|responds].
  destruct b as [| |x|x|s|l|props]; try responds.
  cbv beta iota delta [get].
  destruct (lookup (lit "description") props) as [| |[]|[]|s|l|props']; try responds.
  destruct (ToBoolean (VString s)); cbv beta iota delta [negb]; [|responds].
  destruct (str_length (trim s) =? 0)%N; cbv beta iota zeta; [responds|].
  destruct (openai _) as [response | e]; cbv beta iota.
  - destruct (no_data response); responds.
  - destruct e as [message | v]; cbv beta iota; [|responds].
    destruct (includes message (lit "rate limit")); cbv beta iota; [responds|].
    destruct (includes message (lit "content policy")); responds.
Qed.

(* ================================================================= *)
(** ** Configuration check *)

(** C5: when the provider credential is absent (unset, or set to the empty
    string), the handler answers with the configuration error, status 500,
    whatever the request and the provider are; its only observable action is
    the console line, so the request body is not read and neither the
    prompt builder nor the provider is called. *)
Theorem missing_credential_short_circuits
  (env : ProcessEnv) (openai : OpenAI) (req : Request) :
  ToBoolean (env_OPENAI_API_KEY env) = false ->
  serve env openai req =
    (Return (error_response "OpenAI API key not configured in Replit secrets" 500),
     [console_error (lit "OpenAI API key is missing from environment variables") None]).
Proof.
  intros H. handler_steps. rewrite H. reflexivity.
Qed.

Lemma missing_credential_short_circuits_witness :
  serve env_unset (provider_settling (Resolved {| data := Some [one_image] |}))
        {| json := Rejected (NotAnError VUndefined) |} =
    (Return (error_response "OpenAI API key not configured in Replit secrets" 500),
     [console_error (lit "OpenAI API key is missing from environment variables") None]).
Proof.
  apply (missing_credential_short_circuits env_unset). reflexivity.
Defined.

(* ================================================================= *)
(** ** Validation of the description *)

(** C4, as stated, fails: a body that parses to [null] carries no
    description, and with the credential configured the handler answers
    status 500, "An unexpected error occurred", not "Description is
    required": the destructuring of the body throws before the description
    is looked at. *)
Lemma null_body_description_missing_cex :
  ToBoolean (env_OPENAI_API_KEY env_configured) = true /\
  blank (get VNull (lit "description")) /\
  serve env_configured provider_ok {| json := Resolved VNull |} =
    (Return (error_response "An unexpected error occurred" 500),
     [req_json; console_error (lit "Unexpected error:") (Some TypeError_destructure)]) /\
  caller_message (fst (serve env_configured provider_ok {| json := Resolved VNull |}))
    <> Some (lit "Description is required").
Proof.
  split; [reflexivity|]. split; [left; reflexivity|]. split; [reflexivity|].
  vm_compute. discriminate.
Qed.

(** C4, amended: with the credential configured and a body that parsed to
    something other than [null], a description that is missing, empty or
    white space only is answered with status 400, "Description is required";
    the trace is the read of the body alone, so the provider is not
    called. *)
Theorem blank_description_rejected
  (env : ProcessEnv) (openai : OpenAI) (req : Request) (b : value) :
  ToBoolean (env_OPENAI_API_KEY env) = true ->
  json req = Resolved b ->
  b <> VNull -> b <> VUndefined ->
  blank (get b (lit "description")) ->
  serve env openai req =
    (Return (error_response "Description is required" 400), [req_json]) /\
  prompts_sent (snd (serve env openai req)) = [].
Proof.
  intros Hk Hj Hn Hu Hb.
  assert (E : serve env openai req =
              (Return (error_response "Description is required" 400), [req_json])).
  { assert (H : ToBoolean (get b (lit "description")) = false \/
                 exists s, get b (lit "description") = VString s /\
                           ToBoolean (VString s) = true /\ trim s = []).
    { destruct Hb as [-> | [-> | [s [-> Hs]]]]; [left; reflexivity ..|].
      destruct s as [|c s]; [left; reflexivity|].
      right. eexists. repeat split. now apply trim_whitespace. }
    handler_steps. rewrite Hk, Hj. cbv beta iota delta [negb].
    destruct b; try congruence; cbv beta iota; cbn [app];
      (destruct H as [H | [s0 [H [Ht Hs]]]]; rewrite H;
       [ reflexivity | rewrite Ht; cbv beta iota; rewrite Hs; reflexivity ]). }
  split; [exact E | now rewrite E].
Qed.

Lemma blank_description_rejected_witness :
  serve env_configured provider_ok (submission (VString (lit "   ")) VNull) =
    (Return (error_response "Description is required" 400), [req_json]) /\
  prompts_sent (snd (serve env_configured provider_ok
                           (submission (VString (lit "   ")) VNull))) = [].
Proof.
  apply (blank_description_rejected env_configured provider_ok
           (submission (VString (lit "   ")) VNull)
           (b := VObject [ (lit "description", VString (lit "   "));
                           (lit "referenceImage", VNull) ])).
  - reflexivity.
  - reflexivity.
  - discriminate.
  - discriminate.
  - right. right. exists (lit "   "). split; reflexivity.
Defined.

(** C10: with the credential configured, a body whose description is truthy
    and not a string (a number other than zero, [true], an array, an object)
    makes [description.trim()] throw; the outer [catch] answers with status
    500, "An unexpected error occurred", which is neither "Invalid request
    body" nor "Description is required", and the provider is not called. *)
Theorem non_string_description_unexpected
  (env : ProcessEnv) (openai : OpenAI) (req : Request) (b : value) :
  ToBoolean (env_OPENAI_API_KEY env) = true ->
  json req = Resolved b ->
  ToBoolean (get b (lit "description")) = true ->
  (forall s, get b (lit "description") <> VString s) ->
  serve env openai req =
    (Return (error_response "An unexpected error occurred" 500),
     [req_json; console_error (lit "Unexpected error:") (Some TypeError_trim)]) /\
  caller_message (fst (serve env openai req)) <> Some (lit "Invalid request body") /\
  caller_message (fst (serve env openai req)) <> Some (lit "Description is required") /\
  prompts_sent (snd (serve env openai req)) = [].
Proof.
  intros Hk Hj Ht Hs.
  assert (E : serve env openai req =
    (Return (error_response "An unexpected error occurred" 500),
     [req_json; console_error (lit "Unexpected error:") (Some TypeError_trim)])).
  { handler_steps. rewrite Hk, Hj. cbv beta iota delta [negb].
    destruct b; try discriminate Ht. cbv beta iota. rewrite Ht. cbv beta iota.
    destruct (get (VObject props) (lit "description")) eqn:Hd;
      try reflexivity.
    now destruct (Hs s). }
  rewrite E. repeat split; try reflexivity; vm_compute; discriminate.
Qed.

Lemma non_string_description_unexpected_witness :
  serve env_configured provider_ok (submission forty_two VNull) =
    (Return (error_response "An unexpected error occurred" 500),
     [req_json; console_error (lit "Unexpected error:") (Some TypeError_trim)]) /\
  caller_message (fst (serve env_configured provider_ok (submission forty_two VNull)))
    <> Some (lit "Invalid request body") /\
  caller_message (fst (serve env_configured provider_ok (submission forty_two VNull)))
    <> Some (lit "Description is required") /\
  prompts_sent (snd (serve env_configured provider_ok (submission forty_two VNull))) = [].
Proof.
  apply (non_string_description_unexpected env_configured provider_ok
           (submission forty_two VNull)
           (b := VObject [ (lit "description", forty_two);
                           (lit "referenceImage", VNull) ])).
  - reflexivity.
  - reflexivity.
  - reflexivity.
  - intros s. vm_compute. discriminate.
Defined.

(* ================================================================= *)
(** ** The reference-image flag *)

(** C2, as stated, fails: an empty-string [referenceImage] is not [null],
    and the flag passed to the prompt builder is [false]. *)
Lemma reference_flag_empty_string_cex :
  accepted env_configured (submission (VString dress) (VString (lit ""))) dress
           (VString (lit "")) /\
  VString (lit "") <> VNull /\
  builder_calls (snd (serve env_configured provider_ok
                            (submission (VString dress) (VString (lit "")))))
    = [(dress, false)].
Proof.
  split; [|split].
  - split; [reflexivity|]. eexists. repeat split. vm_compute. discriminate.
  - discriminate.
  - reflexivity.
Qed.

(** C2, amended: for an accepted request the prompt builder is called once,
    with the description and with the truthiness of [referenceImage]: false
    for [null], for a missing field and for the empty string, true for a
    string that is not empty. *)
Theorem reference_flag_is_truthiness
  (env : ProcessEnv) (openai : OpenAI) (req : Request) (d : jsstring) (ref : value) :
  accepted env req d ref ->
  builder_calls (snd (serve env openai req)) = [(d, ToBoolean ref)] /\
  (ref = VNull \/ ref = VUndefined -> ToBoolean ref = false) /\
  (forall s, ref = VString s -> (ToBoolean ref = true <-> s <> lit "")).
Proof.
  intros H. split; [|split].
  - destruct (serve_accepted_trace openai H) as [r [rest [E Hrest]]].
    rewrite E. cbn [snd]. unfold builder_calls. rewrite flat_map_app.
    apply console_only_calls in Hrest as [Hb _]. unfold builder_calls in Hb.
    now rewrite Hb.
  - now intros [-> | ->].
  - intros s ->. change (lit "") with (@nil code_unit). destruct s as [|c s].
    + split; [discriminate | congruence].
    + split; [discriminate | reflexivity].
Qed.

Lemma reference_flag_is_truthiness_witness :
  builder_calls (snd (serve env_configured provider_ok
                            (submission (VString dress) (VString data_url))))
    = [(dress, ToBoolean (VString data_url))] /\
  (VString data_url = VNull \/ VString data_url = VUndefined ->
   ToBoolean (VString data_url) = false) /\
  (forall s, VString data_url = VString s ->
             (ToBoolean (VString data_url) = true <-> s <> lit "")).
Proof.
  apply (reference_flag_is_truthiness (env := env_configured) provider_ok
           (req := submission (VString dress) (VString data_url))).
  split; [reflexivity|]. eexists. repeat split. vm_compute. discriminate.
Defined.

(* ================================================================= *)
(** ** Provider outcomes *)

(** C1, as stated, fails: when the provider resolves with no image the
    caller reads the generic provider error, not "No images generated". *)
Lemma zero_results_message_cex :
  accepted env_configured (submission (VString dress) VNull) dress VNull /\
  fst (serve env_configured provider_empty (submission (VString dress) VNull)) =
    Return (error_response "Error generating image with OpenAI" 500) /\
  caller_message (fst (serve env_configured provider_empty
                             (submission (VString dress) VNull)))
    <> Some (lit "No images generated").
Proof.
  split; [|split].
  - split; [reflexivity|]. eexists. repeat split. vm_compute. discriminate.
  - reflexivity.
  - vm_compute. discriminate.
Qed.

(** C1, amended: for an accepted request, when the provider call resolves
    with a missing or empty [data], the handler answers with status 500 and
    the generic message "Error generating image with OpenAI"; the text "No
    images generated" is the message of the error thrown and caught inside
    the handler, and goes to the console only. *)
Theorem zero_results_generic_provider_error
  (env : ProcessEnv) (openai : OpenAI) (req : Request) (d : jsstring) (ref : value)
  (response : ImagesResponse) :
  accepted env req d ref ->
  openai (generate_params (createPromptWithReference d (ToBoolean ref))) = Resolved response ->
  data response = None \/ data response = Some [] ->
  serve env openai req =
    (Return (error_response "Error generating image with OpenAI" 500),
     [ req_json;
       call_createPromptWithReference d (ToBoolean ref);
       console_log (lit "Sending prompt to OpenAI:")
                   (log_string (createPromptWithReference d (ToBoolean ref)));
       images_generate (generate_params (createPromptWithReference d (ToBoolean ref)));
       console_log (lit "OpenAI API Response:") (log_response_json response);
       console_error (lit "OpenAI API Error:")
                     (Some (ErrorInstance (lit "No images generated"))) ]).
Proof.
  intros H Ho Hdata.
  assert (Hno : no_data response = true).
  { unfold no_data. now destruct Hdata as [-> | ->]. }
  accept H. rewrite Ho. cbv beta iota. rewrite Hno. reflexivity.
Qed.

Lemma zero_results_generic_provider_error_witness :
  serve env_configured provider_empty (submission (VString dress) (VString data_url)) =
    (Return (error_response "Error generating image with OpenAI" 500),
     [ req_json;
       call_createPromptWithReference dress true;
       console_log (lit "Sending prompt to OpenAI:")
                   (log_string (createPromptWithReference dress true));
       images_generate (generate_params (createPromptWithReference dress true));
       console_log (lit "OpenAI API Response:") (log_response_json {| data := Some [] |});
       console_error (lit "OpenAI API Error:")
                     (Some (ErrorInstance (lit "No images generated"))) ]).
Proof.
  apply (zero_results_generic_provider_error (env := env_configured) provider_empty
           (req := submission (VString dress) (VString data_url))
           (d := dress) (ref := VString data_url)
           (response := {| data := Some [] |})).
  - split; [reflexivity|]. eexists. repeat split. vm_compute. discriminate.
  - reflexivity.
  - right. reflexivity.
Defined.

(** C3, as stated, fails twice: a failure whose message mentions both a rate
    limit and the content policy is answered as a rate limit (status 429),
    and a thrown value that is not an [Error], whatever its [message], is
    answered with the generic provider error (status 500). *)
Lemma content_policy_cex :
  includes rate_and_policy (lit "content policy") = true /\
  fst (serve env_configured (provider_settling (Rejected (ErrorInstance rate_and_policy)))
             (submission (VString dress) VNull)) =
    Return (error_response "Rate limit exceeded. Please try again later." 429) /\
  includes policy_only (lit "content policy") = true /\
  fst (serve env_configured (provider_settling (Rejected thrown_object))
             (submission (VString dress) VNull)) =
    Return (error_response "Error generating image with OpenAI" 500).
Proof.
  repeat split; reflexivity.
Qed.

(** C3, amended: for an accepted request, when the provider call fails with
    an [Error] whose message contains "content policy" and does not contain
    "rate limit", the handler answers with status 400 and "Content policy
    violation. Please modify your request.". *)
Theorem content_policy_classification
  (env : ProcessEnv) (openai : OpenAI) (req : Request) (d : jsstring) (ref : value)
  (message : jsstring) :
  accepted env req d ref ->
  openai (generate_params (createPromptWithReference d (ToBoolean ref)))
    = Rejected (ErrorInstance message) ->
  includes message (lit "content policy") = true ->
  includes message (lit "rate limit") = false ->
  serve env openai req =
    (Return (error_response "Content policy violation. Please modify your request." 400),
     [ req_json;
       call_createPromptWithReference d (ToBoolean ref);
       console_log (lit "Sending prompt to OpenAI:")
                   (log_string (createPromptWithReference d (ToBoolean ref)));
       images_generate (generate_params (createPromptWithReference d (ToBoolean ref)));
       console_error (lit "OpenAI API Error:") (Some (ErrorInstance message)) ]).
Proof.
  intros H Ho Hcp Hrl. accept H. rewrite Ho. cbv beta iota.
  rewrite Hrl. cbv beta iota. rewrite Hcp. reflexivity.
Qed.

Lemma content_policy_classification_witness :
  serve env_configured (provider_settling (Rejected (ErrorInstance policy_only)))
        (submission (VString dress) VNull) =
    (Return (error_response "Content policy violation. Please modify your request." 400),
     [ req_json;
       call_createPromptWithReference dress false;
       console_log (lit "Sending prompt to OpenAI:")
                   (log_string (createPromptWithReference dress false));
       images_generate (generate_params (createPromptWithReference dress false));
       console_error (lit "OpenAI API Error:") (Some (ErrorInstance policy_only)) ]).
Proof.
  apply (content_policy_classification (env := env_configured)
           (provider_settling (Rejected (ErrorInstance policy_only)))
           (req := submission (VString dress) VNull) (d := dress) (ref := VNull)
           (message := policy_only)).
  - split; [reflexivity|]. eexists. repeat split. vm_compute. discriminate.
  - reflexivity.
  - reflexivity.
  - reflexivity.
Defined.

(** The other outcomes of the provider call. *)

(** X9: for an accepted request, a provider failure that is an [Error] whose
    message contains "rate limit" is answered with status 429, "Rate limit
    exceeded. Please try again later.", whatever else the message says. *)
Lemma rate_limit_classification
  (env : ProcessEnv) (openai : OpenAI) (req : Request) (d : jsstring) (ref : value)
  (message : jsstring) :
  accepted env req d ref ->
  openai (generate_params (createPromptWithReference d (ToBoolean ref)))
    = Rejected (ErrorInstance message) ->
  includes message (lit "rate limit") = true ->
  fst (serve env openai req) =
    Return (error_response "Rate limit exceeded. Please try again later." 429).
Proof.
  intros H Ho Hrl. accept H. rewrite Ho. cbv beta iota. rewrite Hrl. reflexivity.
Qed.

Lemma not_an_error_generic
  (env : ProcessEnv) (openai : OpenAI) (req : Request) (d : jsstring) (ref : value)
  (v : value) :
  accepted env req d ref ->
  openai (generate_params (createPromptWithReference d (ToBoolean ref)))
    = Rejected (NotAnError v) ->
  fst (serve env openai req) =
    Return (error_response "Error generating image with OpenAI" 500).
Proof.
  intros H Ho. accept H. rewrite Ho. reflexivity.
Qed.

(** X10: for an accepted request, when the provider resolves with a list of
    images that is not empty, the answer is status 200 with that list under
    [designs], unchanged. *)
Lemma designs_passed_through
  (env : ProcessEnv) (openai : OpenAI) (req : Request) (d : jsstring) (ref : value)
  (img : Image) (imgs : list Image) :
  accepted env req d ref ->
  openai (generate_params (createPromptWithReference d (ToBoolean ref)))
    = Resolved {| data := Some (img :: imgs) |} ->
  fst (serve env openai req) =
    Return {| body := designs_body (img :: imgs); status := 200 |}.
Proof.
  intros H Ho. accept H. rewrite Ho. reflexivity.
Qed.

(** X11: with the credential configured, a request whose body does not parse
    is answered with status 400, "Invalid request body"; the parse error
    goes to the console and neither the prompt builder nor the provider is
    called. *)
Lemma malformed_body_rejected
  (env : ProcessEnv) (openai : OpenAI) (req : Request) (e : thrown) :
  ToBoolean (env_OPENAI_API_KEY env) = true ->
  json req = Rejected e ->
  serve env openai req =
    (Return (error_response "Invalid request body" 400),
     [req_json; console_error (lit "Error parsing request body:") (Some e)]).
Proof.
  intros Hk Hj. handler_steps. rewrite Hk, Hj. reflexivity.
Qed.

(* ================================================================= *)
(** ** What the prompt depends on *)

(** C9, as stated, fails: with the same description, the reference images
    [""] and a data URL, neither of them [null], give different prompts. *)
Lemma prompt_reference_content_cex :
  VString (lit "") <> VNull /\ VString data_url <> VNull /\
  prompts_sent (snd (serve env_configured provider_ok
                           (submission (VString dress) (VString (lit "")))))
  <> prompts_sent (snd (serve env_configured provider_ok
                              (submission (VString dress) (VString data_url)))).
Proof.
  split; [discriminate | split; [discriminate|]].
  intros H. apply (f_equal (map (@List.length code_unit))) in H.
  vm_compute in H. discriminate.
Qed.

(** C9, amended: the prompt builder gives equal strings on equal arguments,
    and the prompt sent to the provider depends on the reference image
    through its truthiness only: two accepted requests with the same
    description and reference images of the same truthiness (two strings
    that are not empty, say) send the same single prompt, whatever the
    provider does. *)
Theorem prompt_depends_on_reference_truthiness
  (env : ProcessEnv) (openai1 openai2 : OpenAI) (req1 req2 : Request)
  (d : jsstring) (ref1 ref2 : value) :
  accepted env req1 d ref1 ->
  accepted env req2 d ref2 ->
  ToBoolean ref1 = ToBoolean ref2 ->
  (forall d' h h', d = d' -> h = h' ->
     createPromptWithReference d h = createPromptWithReference d' h') /\
  prompts_sent (snd (serve env openai1 req1)) =
    [createPromptWithReference d (ToBoolean ref1)] /\
  prompts_sent (snd (serve env openai1 req1)) = prompts_sent (snd (serve env openai2 req2)).
Proof.
  intros H1 H2 Hb.
  assert (P : forall openai req ref, accepted env req d ref ->
    prompts_sent (snd (serve env openai req)) = [createPromptWithReference d (ToBoolean ref)]).
  { intros openai req ref H.
    destruct (serve_accepted_trace openai H) as [r [rest [E Hrest]]].
    rewrite E. cbn [snd]. unfold prompts_sent. rewrite flat_map_app.
    apply console_only_calls in Hrest as [_ Hp]. unfold prompts_sent in Hp.
    now rewrite Hp. }
  split; [|split].
  - now intros d' h h' <- <-.
  - now apply P.
  - rewrite (P _ _ _ H1), (P _ _ _ H2). now rewrite Hb.
Qed.

Lemma prompt_depends_on_reference_truthiness_witness :
  (forall d' h h', dress = d' -> h = h' ->
     createPromptWithReference dress h = createPromptWithReference d' h') /\
  prompts_sent (snd (serve env_configured provider_ok
                           (submission (VString dress) (VString data_url)))) =
    [createPromptWithReference dress (ToBoolean (VString data_url))] /\
  prompts_sent (snd (serve env_configured provider_ok
                           (submission (VString dress) (VString data_url)))) =
  prompts_sent (snd (serve env_configured provider_empty
                           (submission (VString dress) (VString other_data_url)))).
Proof.
  apply (prompt_depends_on_reference_truthiness (env := env_configured)
           provider_ok provider_empty
           (req1 := submission (VString dress) (VString data_url))
           (req2 := submission (VString dress) (VString other_data_url))
           (d := dress) (ref1 := VString data_url) (ref2 := VString other_data_url)).
  - split; [reflexivity|]. eexists. repeat split. vm_compute. discriminate.
  - split; [reflexivity|]. eexists. repeat split. vm_compute. discriminate.
  - reflexivity.
Defined.

(* ================================================================= *)
(** ** More on the handler *)

(** The case analysis of one run of the handler, up to the provider call:
    [closer] ends the cases that answer before it. *)
Ltac early_cases closer :=
  let b := fresh "b" in
  let e := fresh "e" in
  let s := fresh "s" in
  let props := fresh "props" in
  handler_steps;
  lazymatch goal with
  | |- context [ToBoolean (env_OPENAI_API_KEY ?env)] =>
      destruct (ToBoolean (env_OPENAI_API_KEY env))
  end;
  cbv beta iota delta [negb]; [|closer];
  lazymatch goal with
  | |- context [json ?req] => destruct (json req) as [b | e]
  end;
  cbv beta iota; [|closer];
  destruct b as [| |?|?|?|?|props]; try closer;
  cbv beta iota delta [get];
  destruct (lookup (lit "description") props) as [| |[]|[]|s|?|?]; try closer;
  destruct (ToBoolean (VString s)); cbv beta iota delta [negb]; [|closer];
  destruct (str_length (trim s) =? 0)%N; cbv beta iota zeta; [closer|].

Ltac in_list := repeat (first [left; reflexivity | right]).

Lemma no_data_false response :
  no_data response = false -> exists img imgs, data response = Some (img :: imgs).
Proof.
  unfold no_data. destruct (data response) as [[|img imgs]|]; try discriminate. eauto.
Qed.


(** X2: in one run the handler makes no call at all, or exactly two, in
    this order: one call of the prompt builder, then one call of the
    provider, with the prompt built from the builder's arguments and the
    fixed parameters of [generate_params]. *)
Theorem provider_called_at_most_once
  (env : ProcessEnv) (openai : OpenAI) (req : Request) :
  outgoing_calls (snd (serve env openai req)) = [] \/
  exists d h,
    outgoing_calls (snd (serve env openai req))
      = [ call_createPromptWithReference d h;
          images_generate (generate_params (createPromptWithReference d h)) ].
Proof.
  early_cases ltac:(solve [left; reflexivity]).
  right. eexists _, _.
  destruct (openai _) as [response | e]; cbv beta iota.
  - destruct (no_data response); reflexivity.
  - destruct e as [message | v]; cbv beta iota.
    + destruct (includes message (lit "rate limit")); cbv beta iota;
        [reflexivity|].
      destruct (includes message (lit "content policy")); reflexivity.
    + reflexivity.
Qed.

(** X1: the handler always answers, and its answer is one of seven fixed
    error responses, or status 200 with a list of designs that is not empty
    and is the list the provider resolved with, as it came. *)
Theorem response_is_fixed_error_or_designs
  (env : ProcessEnv) (openai : OpenAI) (req : Request) :
  exists r, fst (serve env openai req) = Return r /\
    (In r error_responses \/
     exists img imgs d h,
       r = {| body := designs_body (img :: imgs); status := 200 |} /\
       openai (generate_params (createPromptWithReference d h))
         = Resolved {| data := Some (img :: imgs) |}).
Proof.
  early_cases ltac:(solve [eexists; split; [reflexivity | left; in_list]]).
  destruct (openai _) as [response | e] eqn:Ho; cbv beta iota.
  - destruct (no_data response) eqn:Hno; cbv beta iota.
    + eexists; split; [reflexivity | left; in_list].
    + destruct (no_data_false _ Hno) as [img [imgs Hd]]. rewrite Hd.
      eexists; split; [reflexivity|]. right. exists img, imgs. eexists _, _.
      split; [reflexivity|]. rewrite Ho. destruct response as [dt].
      cbn [data] in Hd. now rewrite Hd.
  - destruct e as [message | v]; cbv beta iota.
    + destruct (includes message (lit "rate limit")); cbv beta iota;
        [eexists; split; [reflexivity | left; in_list]|].
      destruct (includes message (lit "content policy")); cbv beta iota;
        eexists; split; try reflexivity; left; in_list.
    + eexists; split; [reflexivity | left; in_list].
Qed.

Lemma rate_limit_classification_witness :
  fst (serve env_configured (provider_settling (Rejected (ErrorInstance rate_and_policy)))
             (submission (VString dress) VNull)) =
    Return (error_response "Rate limit exceeded. Please try again later." 429).
Proof.
  apply (@rate_limit_classification env_configured
           (provider_settling (Rejected (ErrorInstance rate_and_policy)))
           (submission (VString dress) VNull) dress VNull rate_and_policy).
  - split; [reflexivity|]. eexists. repeat split. vm_compute. discriminate.
  - reflexivity.
  - reflexivity.
Defined.

Lemma designs_passed_through_witness :
  fst (serve env_configured provider_ok (submission (VString dress) (VString data_url))) =
    Return {| body := designs_body [one_image]; status := 200 |}.
Proof.
  apply (@designs_passed_through env_configured provider_ok
           (submission (VString dress) (VString data_url)) dress (VString data_url)
           one_image []).
  - split; [reflexivity|]. eexists. repeat split. vm_compute. discriminate.
  - reflexivity.
Defined.

Lemma malformed_body_rejected_witness :
  serve env_configured provider_ok
        {| json := Rejected (ErrorInstance (lit "Unexpected token < in JSON at position 0")) |} =
    (Return (error_response "Invalid request body" 400),
     [req_json;
      console_error (lit "Error parsing request body:")
        (Some (ErrorInstance (lit "Unexpected token < in JSON at position 0")))]).
Proof.
  apply (@malformed_body_rejected env_configured provider_ok
           {| json := Rejected (ErrorInstance (lit "Unexpected token < in JSON at position 0")) |}
           (ErrorInstance (lit "Unexpected token < in JSON at position 0"))).
  - reflexivity.
  - reflexivity.
Defined.

(** X3: with the credential configured, a body that parses to [null] makes
    the destructuring throw; the answer is status 500, "An unexpected error
    occurred", not "Invalid request body", and the provider is not called. *)
Theorem null_body_unexpected
  (env : ProcessEnv) (openai : OpenAI) (req : Request) :
  ToBoolean (env_OPENAI_API_KEY env) = true ->
  json req = Resolved VNull ->
  serve env openai req =
    (Return (error_response "An unexpected error occurred" 500),
     [req_json; console_error (lit "Unexpected error:") (Some TypeError_destructure)]).
Proof.
  intros Hk Hj. handler_steps. rewrite Hk, Hj. reflexivity.
Qed.

Lemma null_body_unexpected_witness :
  serve env_configured provider_ok {| json := Resolved VNull |} =
    (Return (error_response "An unexpected error occurred" 500),
     [req_json; console_error (lit "Unexpected error:") (Some TypeError_destructure)]).
Proof.
  apply (@null_body_unexpected env_configured provider_ok {| json := Resolved VNull |}).
  - reflexivity.
  - reflexivity.
Defined.

(** X4: with the credential configured and a body other than [null], a
    description that is falsy, of whatever type ([0], [false], [NaN] as well
    as a missing one or the empty string), is answered with status 400,
    "Description is required": [trim] is not reached, so no type error
    arises, and the provider is not called. *)
Theorem falsy_description_rejected
  (env : ProcessEnv) (openai : OpenAI) (req : Request) (b : value) :
  ToBoolean (env_OPENAI_API_KEY env) = true ->
  json req = Resolved b ->
  b <> VNull -> b <> VUndefined ->
  ToBoolean (get b (lit "description")) = false ->
  serve env openai req =
    (Return (error_response "Description is required" 400), [req_json]).
Proof.
  intros Hk Hj Hn Hu Hd. handler_steps. rewrite Hk, Hj. cbv beta iota delta [negb].
  destruct b; try congruence; cbv beta iota; cbn [app]; rewrite Hd; reflexivity.
Qed.

Lemma falsy_description_rejected_witness :
  serve env_configured provider_ok (submission (VBool false) VNull) =
    (Return (error_response "Description is required" 400), [req_json]).
Proof.
  apply (@falsy_description_rejected env_configured provider_ok
           (submission (VBool false) VNull)
           (VObject [ (lit "description", VBool false);
                      (lit "referenceImage", VNull) ])).
  - reflexivity.
  - reflexivity.
  - discriminate.
  - discriminate.
  - reflexivity.
Defined.

Lemma has_visible_character_trim (d : jsstring) :
  has_visible_character d = true <-> trim d <> [].
Proof.
  rewrite trim_nil_iff. unfold has_visible_character.
  induction d as [|c d IH]; simpl.
  - split; [discriminate | congruence].
  - destruct (is_whitespace c); simpl; [exact IH|].
    split; [discriminate | reflexivity].
Qed.

Lemma blank_string_description
  (env : ProcessEnv) (openai : OpenAI) (req : Request) (b : value) (d : jsstring) :
  ToBoolean (env_OPENAI_API_KEY env) = true ->
  json req = Resolved b ->
  get b (lit "description") = VString d ->
  trim d = [] ->
  serve env openai req =
    (Return (error_response "Description is required" 400), [req_json]).
Proof.
  intros Hk Hj Hd Ht. destruct (get_string_object b _ Hd) as [props ->].
  handler_steps. rewrite Hk, Hj. cbv beta iota delta [negb]. rewrite Hd.
  destruct (ToBoolean (VString d)); cbv beta iota; [rewrite Ht|]; reflexivity.
Qed.

(** X5: with the credential configured and a description that is a string,
    the provider is called exactly when the description has a code unit
    that [trim] does not strip; it is then called with the description as
    sent, white space at its ends included. *)
Theorem provider_called_iff_visible_description
  (env : ProcessEnv) (openai : OpenAI) (req : Request) (b : value) (d : jsstring) :
  ToBoolean (env_OPENAI_API_KEY env) = true ->
  json req = Resolved b ->
  get b (lit "description") = VString d ->
  (has_visible_character d = true ->
   prompts_sent (snd (serve env openai req))
     = [createPromptWithReference d (ToBoolean (get b (lit "referenceImage")))]) /\
  (has_visible_character d = false ->
   prompts_sent (snd (serve env openai req)) = []).
Proof.
  intros Hk Hj Hd. split; intros Hv.
  - apply has_visible_character_trim in Hv.
    assert (H : accepted env req d (get b (lit "referenceImage"))).
    { split; [exact Hk|]. exists b. repeat split; assumption. }
    destruct (serve_accepted_trace openai H) as [r [rest [E Hrest]]].
    rewrite E. cbn [snd]. unfold prompts_sent. rewrite flat_map_app.
    apply console_only_calls in Hrest as [_ Hp]. unfold prompts_sent in Hp.
    now rewrite Hp.
  - assert (Ht : trim d = []).
    { destruct (trim d) eqn:E; [reflexivity|].
      assert (Hne : trim d <> []) by (rewrite E; discriminate).
      apply has_visible_character_trim in Hne. congruence. }
    now rewrite (@blank_string_description env openai req b d Hk Hj Hd Ht).
Qed.

Lemma provider_called_iff_visible_description_witness :
  (has_visible_character (lit "  silk dress ") = true ->
   prompts_sent (snd (serve env_configured provider_ok
                            (submission (VString (lit "  silk dress ")) VNull)))
     = [createPromptWithReference (lit "  silk dress ")
          (ToBoolean (get (VObject [ (lit "description", VString (lit "  silk dress "));
                                     (lit "referenceImage", VNull) ])
                          (lit "referenceImage")))]) /\
  (has_visible_character (lit "  silk dress ") = false ->
   prompts_sent (snd (serve env_configured provider_ok
                            (submission (VString (lit "  silk dress ")) VNull))) = []).
Proof.
  apply (@provider_called_iff_visible_description env_configured provider_ok
           (submission (VString (lit "  silk dress ")) VNull)
           (VObject [ (lit "description", VString (lit "  silk dress "));
                      (lit "referenceImage", VNull) ])
           (lit "  silk dress ")).
  - reflexivity.
  - reflexivity.
  - reflexivity.
Defined.

(** X6: a provider failure that is not classified, an [Error] whose message
    contains neither "rate limit" nor "content policy" or a thrown value
    that is not an [Error], is answered with status 500 and the generic
    message; the failure's own message goes to the console only. *)
Theorem unclassified_failure_generic
  (env : ProcessEnv) (openai : OpenAI) (req : Request) (d : jsstring) (ref : value)
  (e : thrown) :
  accepted env req d ref ->
  openai (generate_params (createPromptWithReference d (ToBoolean ref))) = Rejected e ->
  (forall message, e = ErrorInstance message ->
     includes message (lit "rate limit") = false /\
     includes message (lit "content policy") = false) ->
  serve env openai req =
    (Return (error_response "Error generating image with OpenAI" 500),
     [ req_json;
       call_createPromptWithReference d (ToBoolean ref);
       console_log (lit "Sending prompt to OpenAI:")
                   (log_string (createPromptWithReference d (ToBoolean ref)));
       images_generate (generate_params (createPromptWithReference d (ToBoolean ref)));
       console_error (lit "OpenAI API Error:") (Some e) ]).
Proof.
  intros H Ho He. accept H. rewrite Ho. cbv beta iota.
  destruct e as [message | v]; [|reflexivity].
  destruct (He message eq_refl) as [Hrl Hcp]. rewrite Hrl. cbv beta iota.
  rewrite Hcp. reflexivity.
Qed.

Lemma unclassified_failure_generic_witness :
  serve env_configured
        (provider_settling (Rejected (ErrorInstance (lit "connect ETIMEDOUT"))))
        (submission (VString dress) VNull) =
    (Return (error_response "Error generating image with OpenAI" 500),
     [ req_json;
       call_createPromptWithReference dress false;
       console_log (lit "Sending prompt to OpenAI:")
                   (log_string (createPromptWithReference dress false));
       images_generate (generate_params (createPromptWithReference dress false));
       console_error (lit "OpenAI API Error:")
                     (Some (ErrorInstance (lit "connect ETIMEDOUT"))) ]).
Proof.
  apply (@unclassified_failure_generic env_configured
           (provider_settling (Rejected (ErrorInstance (lit "connect ETIMEDOUT"))))
           (submission (VString dress) VNull) dress VNull
           (ErrorInstance (lit "connect ETIMEDOUT"))).
  - split; [reflexivity|]. eexists. repeat split. vm_compute. discriminate.
  - reflexivity.
  - intros message E. injection E as <-. split; reflexivity.
Defined.

(** X8: the prompt determines its arguments: two calls of the prompt
    builder that give the same prompt had the same description and the same
    flag. *)
Theorem prompt_injective (d d' : jsstring) (h h' : bool) :
  createPromptWithReference d h = createPromptWithReference d' h' ->
  d = d' /\ h = h'.
Proof.
  rewrite !createPromptWithReference_eq. intros H. apply app_inv_head in H.
  assert (X : forall a a' : jsstring,
            a ++ lit "." ++ reference_block ++ photography_block
            = a' ++ lit "." ++ [] ++ photography_block -> False).
  { intros a a' E.
    change (lit "." ++ [] ++ photography_block) with (lit "." ++ photography_block) in E.
    rewrite !app_assoc in E. apply app_inv_tail in E.
    apply (f_equal (@rev code_unit)) in E. rewrite !rev_app_distr in E.
    vm_compute (rev reference_block) in E. vm_compute (rev (lit ".")) in E.
    simpl in E. discriminate. }
  destruct h, h'.
  - apply app_inv_tail in H. now split.
  - destruct (X _ _ H).
  - symmetry in H. destruct (X _ _ H).
  - apply app_inv_tail in H. now split.
Qed.

Lemma prompt_injective_witness :
  dress = dress /\ true = true.
Proof.
  apply (@prompt_injective dress dress true true).
  reflexivity.
Defined.

(* ================================================================= *)
(** ** The page: [handleSubmit] *)

Ltac page_steps :=
  cbv beta iota zeta delta
    [Page.run Page.handleSubmit Page.handleImageUpload Page.bind Page.ret Page.throw
     Page.return_ Page.emit Page.update Page.queued_state Page.try_catch
     Page.try_finally Page.await Page.when Page.member Page.setLoading Page.setError
     Page.setDesigns Page.setReferenceImage Page.onloadend Page.onerror
     Page.state Page.log fst snd].

(** One case split on the innermost scrutinee of the goal. *)
Ltac split_match :=
  match goal with
  | |- context [match ?x with _ => _ end] =>
      lazymatch x with
      | context [match _ with _ => _ end] => fail
      | _ => destruct x eqn:?
      end
  end; cbv beta iota.



(** X14: [handleSubmit] calls [fetch] exactly once, on the route's path,
    with the description and the reference image of the state it runs on,
    and at that moment the page is loading with no designs and no error;
    what it does afterwards is at most one console line. *)
Theorem submit_request_in_flight
  (ToString : value -> settled jsstring) (fetch : Page.Fetch) (s : Page.State) :
  exists rest,
    snd (Page.run (Page.handleSubmit ToString fetch) s) =
      Page.preventDefault ::
      Page.fetch_call (lit "/api/generate-design") (submit_init s) (in_flight s) :: rest /\
    (rest = [] \/
     exists err, rest = [Page.console_error (lit "Error generating design:") err]).
Proof.
  page_steps. unfold submit_init, in_flight.
  repeat split_match; eexists; (split; [reflexivity|]);
    first [left; reflexivity | right; eexists; reflexivity].
Qed.

(** X15: when the answer is not [ok] and its JSON carries an [error] that is
    a string and not empty, the page shows that string, and no designs. *)
Theorem server_error_message_shown
  (ToString : value -> settled jsstring) (fetch : Page.Fetch) (s : Page.State)
  (r : Page.Response) (v : value) (msg : jsstring) :
  (forall m, ToString (VString m) = Resolved m) ->
  fetch (lit "/api/generate-design") (submit_init s) = Resolved r ->
  Page.ok r = false ->
  Page.json r = Resolved v ->
  get v (lit "error") = VString msg ->
  msg <> lit "" ->
  fst (Page.run (Page.handleSubmit ToString fetch) s) = settled_state s None (Some msg).
Proof.
  intros HT Hf Hok Hj He Hm.
  destruct (get_string_object v _ He) as [props ->].
  assert (Ht : ToBoolean (VString msg) = true).
  { destruct msg; [now destruct Hm | reflexivity]. }
  page_steps. unfold submit_init in Hf. rewrite Hf. cbv beta iota.
  rewrite Hok. cbv beta iota delta [negb]. rewrite Hj. cbv beta iota.
  rewrite He, Ht, HT. reflexivity.
Qed.

Lemma server_error_message_shown_witness :
  fst (Page.run (Page.handleSubmit ToString_strings
                   (fun _ _ => Resolved {| Page.ok := false; Page.status := 429;
                       Page.json := Resolved (VObject [ (lit "error", VString policy_only) ]) |}))
                Page.initial)
  = settled_state Page.initial None (Some policy_only).
Proof.
  apply (@server_error_message_shown ToString_strings
           (fun _ _ => Resolved {| Page.ok := false; Page.status := 429;
               Page.json := Resolved (VObject [ (lit "error", VString policy_only) ]) |})
           Page.initial
           {| Page.ok := false; Page.status := 429;
              Page.json := Resolved (VObject [ (lit "error", VString policy_only) ]) |}
           (VObject [ (lit "error", VString policy_only) ]) policy_only).
  - reflexivity.
  - reflexivity.
  - reflexivity.
  - reflexivity.
  - reflexivity.
  - vm_compute. discriminate.
Defined.

(** X16: when the answer is not [ok] and its JSON, other than [null], has
    no [error] or a falsy one (the empty string, say), the page shows "HTTP
    error! status: " followed by the status in decimal. *)
Theorem http_status_fallback_shown
  (ToString : value -> settled jsstring) (fetch : Page.Fetch) (s : Page.State)
  (r : Page.Response) (v : value) :
  fetch (lit "/api/generate-design") (submit_init s) = Resolved r ->
  Page.ok r = false ->
  Page.json r = Resolved v ->
  v <> VNull -> v <> VUndefined ->
  ToBoolean (get v (lit "error")) = false ->
  fst (Page.run (Page.handleSubmit ToString fetch) s)
    = settled_state s None
        (Some (lit "HTTP error! status: " ++ Page.decimal (Page.status r))).
Proof.
  intros Hf Hok Hj Hn Hu He.
  page_steps. unfold submit_init in Hf. rewrite Hf. cbv beta iota.
  rewrite Hok. cbv beta iota delta [negb]. rewrite Hj. cbv beta iota.
  destruct v; try congruence; cbv beta iota; rewrite He; reflexivity.
Qed.

Lemma http_status_fallback_shown_witness :
  fst (Page.run (Page.handleSubmit ToString_strings
                   (fun _ _ => Resolved {| Page.ok := false; Page.status := 502;
                       Page.json := Resolved (VObject []) |}))
                Page.initial)
  = settled_state Page.initial None (Some (lit "HTTP error! status: 502")).
Proof.
  apply (@http_status_fallback_shown ToString_strings
           (fun _ _ => Resolved {| Page.ok := false; Page.status := 502;
               Page.json := Resolved (VObject []) |})
           Page.initial
           {| Page.ok := false; Page.status := 502; Page.json := Resolved (VObject []) |}
           (VObject [])).
  - reflexivity.
  - reflexivity.
  - reflexivity.
  - discriminate.
  - discriminate.
  - reflexivity.
Defined.

(** X17: when [fetch] itself fails, or the body of the answer is not JSON,
    the page shows the failure's message if the failure is an [Error], and
    "An unexpected error occurred" otherwise; no designs. *)
Theorem request_failure_shown
  (ToString : value -> settled jsstring) (fetch : Page.Fetch) (s : Page.State)
  (e : thrown) :
  fetch (lit "/api/generate-design") (submit_init s) = Rejected e \/
  (exists r, fetch (lit "/api/generate-design") (submit_init s) = Resolved r /\
             Page.json r = Rejected e) ->
  fst (Page.run (Page.handleSubmit ToString fetch) s)
    = settled_state s None
        (Some match e with
              | ErrorInstance message => message
              | NotAnError _ => lit "An unexpected error occurred"
              end).
Proof.
  intros [Hf | [r [Hf Hj]]]; page_steps; unfold submit_init in Hf; rewrite Hf;
    cbv beta iota; [reflexivity|].
  destruct (Page.ok r); cbv beta iota delta [negb]; rewrite Hj; reflexivity.
Qed.

Lemma request_failure_shown_witness :
  fst (Page.run (Page.handleSubmit ToString_strings
                   (fun _ _ => Rejected (ErrorInstance (lit "Failed to fetch"))))
                Page.initial)
  = settled_state Page.initial None (Some (lit "Failed to fetch")).
Proof.
  apply (@request_failure_shown ToString_strings
           (fun _ _ => Rejected (ErrorInstance (lit "Failed to fetch")))
           Page.initial (ErrorInstance (lit "Failed to fetch"))).
  left. reflexivity.
Defined.

(** X18: an [ok] answer whose JSON, other than [null], has no [designs], a
    falsy one or an empty array is shown as "No designs were generated". *)
Theorem empty_designs_shown_as_error
  (ToString : value -> settled jsstring) (fetch : Page.Fetch) (s : Page.State)
  (r : Page.Response) (v : value) :
  fetch (lit "/api/generate-design") (submit_init s) = Resolved r ->
  Page.ok r = true ->
  Page.json r = Resolved v ->
  v <> VNull -> v <> VUndefined ->
  ToBoolean (get v (lit "designs")) = false \/ get v (lit "designs") = VArray [] ->
  fst (Page.run (Page.handleSubmit ToString fetch) s)
    = settled_state s None (Some (lit "No designs were generated")).
Proof.
  intros Hf Hok Hj Hn Hu Hd.
  assert (Hc : negb (ToBoolean (get v (lit "designs")))
               || Page.length_is_zero (get v (lit "designs")) = true).
  { destruct Hd as [-> | ->]; reflexivity. }
  page_steps. unfold submit_init in Hf. rewrite Hf. cbv beta iota.
  rewrite Hok. cbn [negb]. cbv beta iota. rewrite Hj. cbv beta iota.
  destruct v; try congruence; cbv beta iota; rewrite Hc; reflexivity.
Qed.

Lemma empty_designs_shown_as_error_witness :
  fst (Page.run (Page.handleSubmit ToString_strings
                   (fun _ _ => Resolved {| Page.ok := true; Page.status := 200;
                       Page.json := Resolved (VObject [ (lit "designs", VArray []) ]) |}))
                Page.initial)
  = settled_state Page.initial None (Some (lit "No designs were generated")).
Proof.
  apply (@empty_designs_shown_as_error ToString_strings
           (fun _ _ => Resolved {| Page.ok := true; Page.status := 200;
               Page.json := Resolved (VObject [ (lit "designs", VArray []) ]) |})
           Page.initial
           {| Page.ok := true; Page.status := 200;
              Page.json := Resolved (VObject [ (lit "designs", VArray []) ]) |}
           (VObject [ (lit "designs", VArray []) ])).
  - reflexivity.
  - reflexivity.
  - reflexivity.
  - discriminate.
  - discriminate.
  - right. reflexivity.
Defined.



(* ================================================================= *)
(** ** The page: [handleImageUpload] *)

(** X20: a file of more than 10 * 1024 * 1024 bytes is refused: the page
    shows the size message, the file is not read, and the reference image,
    like the rest of the state, stays as it was. *)
Theorem oversized_file_refused
  (s : Page.State) (file : Page.File) (files : list Page.File) :
  (10485760 < Page.size file)%N ->
  Page.run (Page.handleImageUpload (Some (file :: files))) s =
    ({| Page.designDescription := Page.designDescription s;
        Page.referenceImage := Page.referenceImage s;
        Page.loading := Page.loading s;
        Page.designs := Page.designs s;
        Page.error := Some (lit "File size too large. Please upload an image under 10MB.") |},
     []).
Proof.
  intros H. apply N.ltb_lt in H.
  page_steps. cbn [nth_error].
  change (10 * 1024 * 1024)%N with 10485760%N. rewrite H. reflexivity.
Qed.

Lemma oversized_file_refused_witness :
  Page.run (Page.handleImageUpload
              (Some [ {| Page.size := 10485761; Page.read := Some data_url |} ]))
           Page.initial =
    ({| Page.designDescription := Page.designDescription Page.initial;
        Page.referenceImage := Page.referenceImage Page.initial;
        Page.loading := Page.loading Page.initial;
        Page.designs := Page.designs Page.initial;
        Page.error := Some (lit "File size too large. Please upload an image under 10MB.") |},
     []).
Proof.
  apply (@oversized_file_refused Page.initial
           {| Page.size := 10485761; Page.read := Some data_url |} []).
  reflexivity.
Defined.

(** X21: a file of at most 10 * 1024 * 1024 bytes (the bound included) is
    read; when the read succeeds the data URL becomes the reference image
    and an error message shown before is cleared. *)
Theorem file_read_sets_reference
  (s : Page.State) (file : Page.File) (files : list Page.File) (dataURL : jsstring) :
  (Page.size file <= 10485760)%N ->
  Page.read file = Some dataURL ->
  Page.run (Page.handleImageUpload (Some (file :: files))) s =
    ({| Page.designDescription := Page.designDescription s;
        Page.referenceImage := Some dataURL;
        Page.loading := Page.loading s;
        Page.designs := Page.designs s;
        Page.error := None |},
     [Page.readAsDataURL file]).
Proof.
  intros H Hr. apply N.ltb_ge in H.
  page_steps. cbn [nth_error].
  change (10 * 1024 * 1024)%N with 10485760%N. rewrite H. cbv beta iota.
  rewrite Hr. reflexivity.
Qed.

Lemma file_read_sets_reference_witness :
  Page.run (Page.handleImageUpload
              (Some [ {| Page.size := 10485760; Page.read := Some data_url |} ]))
           (settled_state Page.initial None (Some (lit "Failed to fetch"))) =
    ({| Page.designDescription := lit "";
        Page.referenceImage := Some data_url;
        Page.loading := false;
        Page.designs := None;
        Page.error := None |},
     [Page.readAsDataURL {| Page.size := 10485760; Page.read := Some data_url |}]).
Proof.
  apply (@file_read_sets_reference
           (settled_state Page.initial None (Some (lit "Failed to fetch")))
           {| Page.size := 10485760; Page.read := Some data_url |} [] data_url).
  - vm_compute. discriminate.
  - reflexivity.
Defined.

(** X22: when the read of an accepted file fails, [onerror] puts its message
    on the page and [onloadend], which runs after it with a null result,
    clears it again and removes the reference image: the page ends with no
    reference image and no error message. *)
Theorem failed_read_leaves_no_message
  (s : Page.State) (file : Page.File) (files : list Page.File) :
  (Page.size file <= 10485760)%N ->
  Page.read file = None ->
  Page.run (Page.handleImageUpload (Some (file :: files))) s =
    ({| Page.designDescription := Page.designDescription s;
        Page.referenceImage := None;
        Page.loading := Page.loading s;
        Page.designs := Page.designs s;
        Page.error := None |},
     [Page.readAsDataURL file]).
Proof.
  intros H Hr. apply N.ltb_ge in H.
  page_steps. cbn [nth_error].
  change (10 * 1024 * 1024)%N with 10485760%N. rewrite H. cbv beta iota.
  rewrite Hr. reflexivity.
Qed.

Lemma failed_read_leaves_no_message_witness :
  Page.run (Page.handleImageUpload
              (Some [ {| Page.size := 2048; Page.read := None |} ]))
           {| Page.designDescription := dress; Page.referenceImage := Some data_url;
              Page.loading := false; Page.designs := None; Page.error := None |} =
    ({| Page.designDescription := dress;
        Page.referenceImage := None;
        Page.loading := false;
        Page.designs := None;
        Page.error := None |},
     [Page.readAsDataURL {| Page.size := 2048; Page.read := None |}]).
Proof.
  apply (@failed_read_leaves_no_message
           {| Page.designDescription := dress; Page.referenceImage := Some data_url;
              Page.loading := false; Page.designs := None; Page.error := None |}
           {| Page.size := 2048; Page.read := None |} []).
  - vm_compute. discriminate.
  - reflexivity.
Defined.

(* ================================================================= *)
(** ** The page and the route together *)

Section PageAndRoute.

Variable ToString : value -> settled jsstring.
Hypothesis ToString_string : forall m, ToString (VString m) = Resolved m.

(** A submission answered by the route: the page ends with the route's
    error message, or with the route's designs. *)
Lemma submit_via_route (env : ProcessEnv) (openai : OpenAI) (s : Page.State)
  (r : NextResponse) :
  fst (serve env openai (submitted s)) = Return r ->
  In r error_responses \/
    (exists img imgs, r = {| body := designs_body (img :: imgs); status := 200 |}) ->
  fst (Page.run (Page.handleSubmit ToString (route_fetch env openai)) s) =
    match body r with
    | error_body msg => settled_state s None (Some msg)
    | designs_body l => settled_state s (Some (VArray (map image_json l))) None
    end.
Proof.
  intros Hs Hr.
  assert (Hf : route_fetch env openai (lit "/api/generate-design") (submit_init s) =
               Resolved {| Page.ok := (200 <=? status r)%N && (status r <=? 299)%N;
                           Page.status := status r;
                           Page.json := Resolved (payload_json (body r)) |}).
  { unfold route_fetch. unfold submitted in Hs. now rewrite Hs. }
  destruct Hr as [Hin | [img [imgs ->]]].
  - assert (Hshape : exists msg, body r = error_body msg /\ msg <> lit "" /\
                                 (200 <=? status r)%N && (status r <=? 299)%N = false).
    { unfold error_responses in Hin. simpl in Hin.
      repeat (destruct Hin as [<- | Hin];
              [eexists; split; [reflexivity | split; [vm_compute; discriminate | reflexivity]]|]).
      destruct Hin. }
    destruct Hshape as [msg [Hb [Hm Hok]]]. rewrite Hb, Hok in *.
    change (payload_json (error_body msg))
      with (VObject [ (lit "error", VString msg) ]) in Hf.
    assert (Hg : get (VObject [ (lit "error", VString msg) ]) (lit "error") = VString msg)
      by reflexivity.
    assert (Ht : ToBoolean (VString msg) = true).
    { destruct msg; [now destruct Hm | reflexivity]. }
    page_steps. unfold submit_init in Hf. rewrite Hf. cbv beta iota.
    cbn [Page.ok Page.json negb]. cbv beta iota. rewrite Hg, Ht, ToString_string.
    reflexivity.
  - cbn [body status] in *.
    change ((200 <=? 200)%N && (200 <=? 299)%N) with true in Hf.
    page_steps. unfold submit_init in Hf. rewrite Hf. reflexivity.
Qed.

End PageAndRoute.





(** X25: with the credential configured, submitting a description that has
    no code unit other than white space ends with "Description is required"
    on the page, and the provider is not called. *)
Theorem blank_description_on_page
  (ToString : value -> settled jsstring) (env : ProcessEnv) (openai : OpenAI)
  (s : Page.State) :
  (forall m, ToString (VString m) = Resolved m) ->
  ToBoolean (env_OPENAI_API_KEY env) = true ->
  has_visible_character (Page.designDescription s) = false ->
  fst (Page.run (Page.handleSubmit ToString (route_fetch env openai)) s)
    = settled_state s None (Some (lit "Description is required")) /\
  provider_calls (snd (serve env openai (submitted s))) = [].
Proof.
  intros HT Hk Hv.
  assert (Ht : trim (Page.designDescription s) = []).
  { destruct (trim (Page.designDescription s)) eqn:E; [reflexivity|].
    assert (Hne : trim (Page.designDescription s) <> []) by (rewrite E; discriminate).
    apply has_visible_character_trim in Hne. congruence. }
  assert (E : serve env openai (submitted s) =
              (Return (error_response "Description is required" 400), [req_json])).
  { apply (@blank_string_description env openai (submitted s)
             (Page.body_json (submit_init s)) (Page.designDescription s));
      [exact Hk | reflexivity | reflexivity | exact Ht]. }
  split.
  - rewrite (@submit_via_route ToString HT env openai s
               (error_response "Description is required" 400)).
    + reflexivity.
    + now rewrite E.
    + left. unfold error_responses. in_list.
  - now rewrite E.
Qed.

Lemma blank_description_on_page_witness :
  fst (Page.run (Page.handleSubmit ToString_strings (route_fetch env_configured provider_ok))
                {| Page.designDescription := lit "   "; Page.referenceImage := None;
                   Page.loading := false; Page.designs := None; Page.error := None |})
    = settled_state
        {| Page.designDescription := lit "   "; Page.referenceImage := None;
           Page.loading := false; Page.designs := None; Page.error := None |}
        None (Some (lit "Description is required")) /\
  provider_calls
    (snd (serve env_configured provider_ok
            (submitted {| Page.designDescription := lit "   "; Page.referenceImage := None;
                          Page.loading := false; Page.designs := None;
                          Page.error := None |}))) = [].
Proof.
  apply (@blank_description_on_page ToString_strings env_configured provider_ok
           {| Page.designDescription := lit "   "; Page.referenceImage := None;
              Page.loading := false; Page.designs := None; Page.error := None |}).
  - reflexivity.
  - reflexivity.
  - reflexivity.
Defined.

(** X26: with the credential configured, a description typed on the page
    that has a visible character reaches the provider verbatim in one
    prompt, and the prompt is built with the reference flag set exactly when
    the page holds a reference image that is not the empty string. *)
Theorem page_submission_prompt
  (env : ProcessEnv) (openai : OpenAI) (s : Page.State) :
  ToBoolean (env_OPENAI_API_KEY env) = true ->
  has_visible_character (Page.designDescription s) = true ->
  provider_calls (snd (serve env openai (submitted s))) =
    [generate_params
       (createPromptWithReference (Page.designDescription s)
          match Page.referenceImage s with
          | Some (_ :: _) => true
          | _ => false
          end)].
Proof.
  intros Hk Hv. apply has_visible_character_trim in Hv.
  assert (H : accepted env (submitted s) (Page.designDescription s)
                       (Page.nullable (Page.referenceImage s))).
  { split; [exact Hk|]. eexists. repeat split. exact Hv. }
  destruct (serve_accepted_trace openai H) as [r [rest [E Hrest]]].
  rewrite E. cbn [snd]. unfold provider_calls. rewrite flat_map_app.
  assert (Hrest' : flat_map (fun ev => match ev with
                                       | images_generate p => [p]
                                       | _ => []
                                       end) rest = []).
  { clear E. induction rest as [|ev rest IH]; [reflexivity|].
    simpl in Hrest. apply andb_true_iff in Hrest as [Hev Hrest].
    simpl. rewrite (IH Hrest). destruct ev; try discriminate; reflexivity. }
  rewrite Hrest'. cbn [flat_map app].
  destruct (Page.referenceImage s) as [[|c u]|]; reflexivity.
Qed.

Lemma page_submission_prompt_witness :
  provider_calls
    (snd (serve env_configured provider_ok
            (submitted {| Page.designDescription := dress;
                          Page.referenceImage := Some data_url;
                          Page.loading := false; Page.designs := None;
                          Page.error := None |}))) =
    [generate_params (createPromptWithReference dress true)].
Proof.
  apply (@page_submission_prompt env_configured provider_ok
           {| Page.designDescription := dress; Page.referenceImage := Some data_url;
              Page.loading := false; Page.designs := None; Page.error := None |}).
  - reflexivity.
  - reflexivity.
Defined.
